(** * Notionmovie: the webhook handler of [src/Api/notion-movie-fill.ts]

    A shallow embedding of the TypeScript module and the properties of its
    text transformers, its two API wrappers and its request handler.

    JavaScript strings are sequences of UTF-16 code units, and every length,
    slice and regular expression of the source counts code units; a string
    is therefore a [list N] of code units.  Literals of the source are
    written as they stand there and decoded from the UTF-8 bytes of the
    Rocq literal. *)

From Stdlib Require Import ZArith NArith List Lia Ascii String Floats.
From stdpp Require Import base list gmap.

Set Warnings "-register-all".

Open Scope N_scope.

(** ** Strings of UTF-16 code units *)

Abbreviation jsstring := (list N).

(** Code points of a UTF-8 byte sequence (the literals of this file are
    well-formed, so a truncated sequence simply ends the decoding). *)
Fixpoint utf8_decode (bs : list N) : list N :=
  match bs with
  | [] => []
  | b0 :: r =>
    if b0 <? 0x80 then b0 :: utf8_decode r
    else if b0 <? 0xE0 then
      match r with
      | b1 :: r1 =>
        N.lor (N.shiftl (N.land b0 0x1F) 6) (N.land b1 0x3F) :: utf8_decode r1
      | _ => []
      end
    else if b0 <? 0xF0 then
      match r with
      | b1 :: b2 :: r2 =>
        N.lor (N.shiftl (N.land b0 0x0F) 12)
          (N.lor (N.shiftl (N.land b1 0x3F) 6) (N.land b2 0x3F)) :: utf8_decode r2
      | _ => []
      end
    else
      match r with
      | b1 :: b2 :: b3 :: r3 =>
        N.lor (N.shiftl (N.land b0 0x07) 18)
          (N.lor (N.shiftl (N.land b1 0x3F) 12)
             (N.lor (N.shiftl (N.land b2 0x3F) 6) (N.land b3 0x3F))) :: utf8_decode r3
      | _ => []
      end
  end.

(** UTF-16 code units of a code point. *)
Definition utf16_units (cp : N) : list N :=
  if cp <? 0x10000 then [cp]
  else [0xD800 + N.shiftr (cp - 0x10000) 10; 0xDC00 + N.land (cp - 0x10000) 0x3FF].

Fixpoint bytes_of_string (s : string) : list N :=
  match s with
  | EmptyString => []
  | String a r => N_of_ascii a :: bytes_of_string r
  end.

(** A source literal as a JavaScript string. *)
Definition js (s : string) : jsstring :=
  flat_map utf16_units (utf8_decode (bytes_of_string s)).

(** [!s] for a string: only the empty string is falsy. *)
Definition falsy (s : jsstring) : bool :=
  match s with [] => true | _ => false end.

(** The class [\s] of a regular expression, which is also what
    [String.prototype.trim] strips: WhiteSpace and LineTerminator. *)
Definition is_space (c : N) : bool :=
  (c =? 0x09) || (c =? 0x0A) || (c =? 0x0B) || (c =? 0x0C) || (c =? 0x0D)
  || (c =? 0x20) || (c =? 0xA0) || (c =? 0x1680)
  || ((0x2000 <=? c) && (c <=? 0x200A))
  || (c =? 0x2028) || (c =? 0x2029) || (c =? 0x202F) || (c =? 0x205F)
  || (c =? 0x3000) || (c =? 0xFEFF).

(** [s.slice(0, n)] for [0 <= n]. *)
Definition slice0 (n : nat) (s : jsstring) : jsstring := take n s.

(** [s.trimStart()], [s.trimEnd()] and [s.trim()]. *)
Fixpoint trimStart (s : jsstring) : jsstring :=
  match s with
  | [] => []
  | c :: r => if is_space c then trimStart r else s
  end.

Definition trimEnd (s : jsstring) : jsstring := reverse (trimStart (reverse s)).

Definition trim (s : jsstring) : jsstring := trimEnd (trimStart s).

(** ** Global replacement by a regular expression

    [s.replace(/re/g, rep)] scans [s] from the left: where the expression
    matches, the match is replaced by [rep] and the scan resumes behind it;
    elsewhere the code unit is copied.  A regular expression is given by its
    matcher: the length of its (greedy) match at the front of a string.  The
    three expressions of the source never match the empty string, so the
    scan carries the number of code units of the current match that are
    still to be skipped. *)
Definition matcher := jsstring -> option nat.

Fixpoint replace_scan (m : matcher) (rep : jsstring) (skip : nat) (s : jsstring)
  : jsstring :=
  match s with
  | [] => []
  | c :: r =>
    match skip with
    | S k => replace_scan m rep k r
    | O =>
      match m s with
      | Some (S n) => rep ++ replace_scan m rep n r
      | _ => c :: replace_scan m rep 0 r
      end
    end
  end.

Definition replace_all (m : matcher) (rep s : jsstring) : jsstring :=
  replace_scan m rep 0 s.

(** Length of the longest prefix of white space. *)
Fixpoint space_run (s : jsstring) : nat :=
  match s with
  | c :: r => if is_space c then S (space_run r) else O
  | [] => O
  end.

(** [/\s+/]: one or more white space characters, as many as there are. *)
Definition re_spaces : matcher := fun s =>
  match space_run s with O => None | n => Some n end.

Definition is_terminator (c : N) : bool :=
  (c =? 0x2E) || (c =? 0x21) || (c =? 0x3F).

(** [/[.!?]\s+/]: a sentence terminator and the white space behind it. *)
Definition re_terminator_spaces : matcher := fun s =>
  match s with
  | c :: r =>
    if is_terminator c then
      match space_run r with O => None | n => Some (S n) end
    else None
  | [] => None
  end.

(** Whether [p] is a prefix of [s]. *)
Fixpoint starts_with (p s : jsstring) : bool :=
  match p, s with
  | [], _ => true
  | a :: p', b :: s' => (a =? b) && starts_with p' s'
  | _ :: _, [] => false
  end.

(** A literal pattern such as [/입니다/]. *)
Definition re_literal (p : jsstring) : matcher := fun s =>
  if starts_with p s then Some (length p) else None.

(** ** The plot summarizer *)

Definition hada : jsstring := Eval vm_compute in js "하다".
Definition ibnida : jsstring := Eval vm_compute in js "입니다".
Definition ellipsis : N := 0x2026.
Definition insufficient : jsstring :=
  Eval vm_compute in js "작품 정보가 부족하여 간단 요약을 제공하지 못하다.".

(** The three replacements of [summarizeKorean], in the source's order. *)
Definition collapse_spaces (s : jsstring) : jsstring :=
  replace_all re_spaces (js " ") s.
Definition rewrite_terminators (s : jsstring) : jsstring :=
  replace_all re_terminator_spaces (js "하다. ") s.
Definition rewrite_ibnida (s : jsstring) : jsstring :=
  replace_all (re_literal ibnida) hada s.

Definition cleaned (plot : jsstring) : jsstring :=
  rewrite_ibnida (rewrite_terminators (collapse_spaces plot)).

(** [cleaned.length > 360 ? cleaned.slice(0, 356) + "…" : cleaned] *)
Definition truncate (c : jsstring) : jsstring :=
  if (360 <? length c)%nat then slice0 356 c ++ [ellipsis] else c.

(** The class [[.?!…]] of the final test. *)
Definition is_closer (c : N) : bool := is_terminator c || (c =? ellipsis).

(** [/하다[.?!…]?$/] tried at the front of [s]: the marker, at most one
    closing character, and then the end of the string. *)
Definition marker_here (s : jsstring) : bool :=
  starts_with hada s &&
  match drop 2 s with
  | [] => true
  | [c] => is_closer c
  | _ => false
  end.

(** [/하다[.?!…]?$/.test(s)]: the expression is tried at every position. *)
Fixpoint ends_with_marker (s : jsstring) : bool :=
  marker_here s ||
  match s with
  | [] => false
  | _ :: r => ends_with_marker r
  end.

Definition summarizeKorean (plot : jsstring) : jsstring :=
  if falsy plot then insufficient
  else
    let out := truncate (cleaned plot) in
    if ends_with_marker out then out else out ++ js "하다.".

(** The summary with the two cleaning steps that the specification lists
    (white space, then terminators) and nothing else: the specification's
    reading of the summarizer, kept apart from the source's. *)
Definition cleaned_spec (plot : jsstring) : jsstring :=
  rewrite_terminators (collapse_spaces plot).

Definition summarizeKorean_spec (plot : jsstring) : jsstring :=
  if falsy plot then insufficient
  else
    let out := truncate (cleaned_spec plot) in
    if ends_with_marker out then out else out ++ js "하다.".

(** At most one closing character of the class [[.?!…]]. *)
Definition closer_opt (t : jsstring) : Prop :=
  t = [] \/ exists c, t = [c] /\ is_closer c = true.


(** ** The feature synthesizer *)

(** [a.join(sep)] for an array of strings. *)
Fixpoint join (sep : jsstring) (a : list jsstring) : jsstring :=
  match a with
  | [] => []
  | [x] => x
  | x :: r => x ++ sep ++ join sep r
  end.

(** [a.push(x)], the array being passed along. *)
Definition push (a : list jsstring) (x : jsstring) : list jsstring := a ++ [x].

Definition rhythm : jsstring := Eval vm_compute in js "리듬감 있는 전개".

Definition featuresFromData (director : jsstring) (genres : list jsstring)
  : jsstring :=
  let base := [] in
  let base :=
    if falsy director then base else push base (js "연출: " ++ director) in
  let base :=
    match length genres with
    | O => base
    | _ => push base (js "장르 결합: " ++ join (js ", ") (take 3 genres))
    end in
  let base := push base rhythm in
  join (js " / ") base.

(** ** JSON values and exceptions *)

(** What [JSON.parse] returns.  An object lists its members in order, each
    key once. *)
Inductive json :=
| JNull
| JBool (b : bool)
| JNum (x : float)
| JStr (s : jsstring)
| JArr (items : list json)
| JObj (members : list (jsstring * json)).

(** A value read off an object is a JSON value or [undefined] ([None]). *)
Definition truthy (v : option json) : bool :=
  match v with
  | None | Some JNull => false
  | Some (JBool b) => b
  | Some (JNum x) => negb (PrimFloat.is_zero x || PrimFloat.is_nan x)
  | Some (JStr s) => negb (falsy s)
  | Some (JArr _) | Some (JObj _) => true
  end.

Fixpoint assoc {V} (k : jsstring) (ms : list (jsstring * V)) : option V :=
  match ms with
  | [] => None
  | (k', v) :: r => if decide (k = k') then Some v else assoc k r
  end.

(** What the handler's [catch] can see of a thrown value: its [message].
    [Error] is thrown by the module itself, [TypeError] and [URIError] by
    the language, [Rejected] by a call to Notion or to the provider. *)
Inductive exn :=
| Error (message : jsstring)
| TypeError (message : jsstring)
| URIError (message : jsstring)
| Rejected (message : jsstring).

Definition message (e : exn) : jsstring :=
  match e with
  | Error m | TypeError m | URIError m | Rejected m => m
  end.

Definition result (A : Type) : Type := exn + A.

(** ** [encodeURIComponent] *)

Definition is_high_surrogate (c : N) : bool := (0xD800 <=? c) && (c <=? 0xDBFF).
Definition is_low_surrogate (c : N) : bool := (0xDC00 <=? c) && (c <=? 0xDFFF).

(** Code points of a string; [None] at a lone surrogate. *)
Fixpoint code_points (s : jsstring) : option (list N) :=
  match s with
  | [] => Some []
  | c :: r =>
    if is_high_surrogate c then
      match r with
      | d :: r' =>
        if is_low_surrogate d then
          cons (0x10000 + N.shiftl (c - 0xD800) 10 + (d - 0xDC00)) <$> code_points r'
        else None
      | [] => None
      end
    else if is_low_surrogate c then None
    else cons c <$> code_points r
  end.

Definition utf8_encode (cp : N) : list N :=
  if cp <? 0x80 then [cp]
  else if cp <? 0x800 then
    [N.lor 0xC0 (N.shiftr cp 6); N.lor 0x80 (N.land cp 0x3F)]
  else if cp <? 0x10000 then
    [N.lor 0xE0 (N.shiftr cp 12); N.lor 0x80 (N.land (N.shiftr cp 6) 0x3F);
     N.lor 0x80 (N.land cp 0x3F)]
  else
    [N.lor 0xF0 (N.shiftr cp 18); N.lor 0x80 (N.land (N.shiftr cp 12) 0x3F);
     N.lor 0x80 (N.land (N.shiftr cp 6) 0x3F); N.lor 0x80 (N.land cp 0x3F)].

Definition is_alnum (c : N) : bool :=
  ((0x30 <=? c) && (c <=? 0x39)) || ((0x41 <=? c) && (c <=? 0x5A))
  || ((0x61 <=? c) && (c <=? 0x7A)).

(** The characters [encodeURIComponent] leaves as they are. *)
Definition is_unreserved (c : N) : bool :=
  is_alnum c || (c =? 0x2D) || (c =? 0x5F) || (c =? 0x2E) || (c =? 0x21)
  || (c =? 0x7E) || (c =? 0x2A) || (c =? 0x27) || (c =? 0x28) || (c =? 0x29).

Definition hex_digit (n : N) : N := if n <? 10 then 0x30 + n else 0x41 + (n - 10).

Definition percent (b : N) : jsstring :=
  [0x25; hex_digit (N.shiftr b 4); hex_digit (N.land b 0xF)].

Definition encode_point (cp : N) : jsstring :=
  if is_unreserved cp then [cp] else flat_map percent (utf8_encode cp).

Definition encodeURIComponent (s : jsstring) : result jsstring :=
  match code_points s with
  | Some cps => inr (flat_map encode_point cps)
  | None => inl (URIError (js "URI malformed"))
  end.

(** ** The notion page, the provider's answer and the property values *)

(** One fragment of a rich title. *)
Record fragment := { plain_text : option jsstring }.

(** A page property: [title] is there for a property of the title kind. *)
Record property := { title : option (list fragment) }.

Record page := { properties : option (gmap jsstring property) }.

(** The members that [fetchFromOMDb] reads off the provider's JSON answer,
    each a string when it is present, as OMDb sends them. *)
Record omdb_json := {
  Response : option jsstring;
  Error_ : option jsstring;
  Director : option jsstring;
  Plot : option jsstring;
  Genre : option jsstring;
  Released : option jsstring;
  Writer : option jsstring;
  Actors : option jsstring
}.

(** The record [fetchFromOMDb] returns. *)
Record movie := {
  director : jsstring;
  plot : jsstring;
  genres : list jsstring;
  released : jsstring;
  writers : jsstring;
  actors : jsstring
}.

(** What is written to a page property. *)
Inductive property_value :=
| rich_text (content : jsstring)
| multi_select (names : list jsstring)
| date (start : jsstring)
| status (name : jsstring).

(** A JavaScript object with string keys, none of them an array index: its
    keys in insertion order, each with its value, [None] for [undefined]. *)
Definition object (V : Type) : Type := list (jsstring * option V).

Fixpoint obj_set {V} (o : object V) (k : jsstring) (v : option V) : object V :=
  match o with
  | [] => [(k, v)]
  | (k', v') :: r =>
    if decide (k = k') then (k, v) :: r else (k', v') :: obj_set r k v
  end.

Definition Object_keys {V} (o : object V) : list jsstring := map fst o.



(** [s.split(sep)] for a separator of one code unit. *)
Fixpoint split_on (sep : N) (s : jsstring) : list jsstring :=
  match s with
  | [] => [[]]
  | c :: r =>
    if c =? sep then [] :: split_on sep r
    else
      match split_on sep r with
      | x :: xs => (c :: x) :: xs
      | [] => [[c]]
      end
  end.

(** ** Dates

    A [Date] holds a time value: milliseconds since 1970-01-01T00:00:00Z,
    or NaN ([None]) for an invalid date.  [toISOString] prints the time
    value in UTC. *)

Definition msPerDay : Z := 86400000.

(** Year, month and day of the month of a day number (days since
    1970-01-01) in the proleptic Gregorian calendar. *)
Definition civil_from_days (day : Z) : Z * Z * Z :=
  let z := (day + 719468)%Z in
  let era := (z / 146097)%Z in
  let doe := (z - era * 146097)%Z in
  let yoe := ((doe - doe / 1460 + doe / 36524 - doe / 146096) / 365)%Z in
  let doy := (doe - (365 * yoe + yoe / 4 - yoe / 100))%Z in
  let mp := ((5 * doy + 2) / 153)%Z in
  let d := (doy - (153 * mp + 2) / 5 + 1)%Z in
  let m := (if mp <? 10 then mp + 3 else mp - 9)%Z in
  let y := (yoe + era * 400 + (if m <=? 2 then 1 else 0))%Z in
  (y, m, d).

(** The day number of a calendar date: what [civil_from_days] inverts. *)
Definition days_from_civil (y m d : Z) : Z :=
  let y' := (if m <=? 2 then y - 1 else y)%Z in
  let era := (y' / 400)%Z in
  let yoe := (y' - era * 400)%Z in
  let mp := (if m <=? 2 then m + 9 else m - 3)%Z in
  let doy := ((153 * mp + 2) / 5 + d - 1)%Z in
  let doe := (yoe * 365 + yoe / 4 - yoe / 100 + doy)%Z in
  (era * 146097 + doe - 719468)%Z.

Definition digit (n : Z) : N := 0x30 + Z.to_N (n mod 10).

(** [n] in decimal, [w] digits wide, zero padded. *)
Fixpoint digits (w : nat) (n : Z) : jsstring :=
  match w with
  | O => []
  | S w' => digits w' (n / 10) ++ [digit n]
  end.

(** The year of [toISOString]: four digits from 0 to 9999, and a sign with
    six digits otherwise. *)
Definition iso_year (y : Z) : jsstring :=
  if ((0 <=? y) && (y <=? 9999))%Z then digits 4 y
  else (if (y <? 0)%Z then 0x2D else 0x2B) :: digits 6 (Z.abs y).

Definition toISOString (t : Z) : jsstring :=
  let '(y, m, d) := civil_from_days (t / msPerDay) in
  let ms := (t mod msPerDay)%Z in
  iso_year y ++ js "-" ++ digits 2 m ++ js "-" ++ digits 2 d ++ js "T"
  ++ digits 2 (ms / 3600000) ++ js ":" ++ digits 2 (ms / 60000 mod 60) ++ js ":"
  ++ digits 2 (ms / 1000 mod 60) ++ js "." ++ digits 3 (ms mod 1000) ++ js "Z".

(** The date as [toISOString] prints it for a four-digit year. *)
Definition iso_date (y m d : Z) : jsstring :=
  digits 4 y ++ js "-" ++ digits 2 m ++ js "-" ++ digits 2 d.

(** ** The outside world

    The module reads one environment variable and talks to Notion and to
    the provider; how the engine reads a date that is not in the ISO format
    is left to the engine ([Date.parse]).  One record holds what a run of
    the handler may depend on. *)
Record World := {
  (** [process.env.OMDB_API_KEY] *)
  OMDB : option jsstring;
  (** [Date.parse]: the time value, or [None] for NaN *)
  Date_parse : jsstring -> option Z;
  (** [notion.pages.retrieve({ page_id })] *)
  notion_retrieve : json -> result page;
  (** [fetch(url)] and [res.json()] *)
  http_get_json : jsstring -> result omdb_json;
  (** [notion.pages.update({ page_id, properties })] *)
  notion_update : json -> object property_value -> result unit
}.

(** The outbound calls of a run, in order. *)
Inductive call :=
| NotionRetrieve (page_id : json)
| HttpGet (url : jsstring)
| NotionUpdate (page_id : json) (props : object property_value).

(** A computation that may throw and that records its outbound calls. *)
Definition M (A : Type) : Type := list call -> result A * list call.

Definition ret {A} (a : A) : M A := fun tr => (inr a, tr).
Definition throw {A} (e : exn) : M A := fun tr => (inl e, tr).
Definition bind {A B} (c : M A) (k : A -> M B) : M B := fun tr =>
  match c tr with
  | (inr a, tr') => k a tr'
  | (inl e, tr') => (inl e, tr')
  end.
(** An outbound call: recorded, then answered by the world. *)
Definition perform {A} (c : call) (answer : result A) : M A := fun tr =>
  (answer, tr ++ [c]).
Definition lift {A} (r : result A) : M A := fun tr => (r, tr).

#[local] Instance M_ret : MRet M := @ret.
#[local] Instance M_bind : MBind M := fun A B k c => bind c k.

Section Handler.

Variable w : World.

(** [a || b] for strings that may be [undefined]. *)
Definition or_else (a : option jsstring) (b : jsstring) : jsstring :=
  match a with
  | Some ((_ :: _) as s) => s
  | _ => b
  end.

(** [s.split(",")] *)
Definition split_comma (s : jsstring) : list jsstring := split_on 0x2C s.

(** The URL of the request, with the title already encoded. *)
Definition omdb_url (key piece : jsstring) : jsstring :=
  js "https://www.omdbapi.com/?apikey=" ++ key ++ js "&t=" ++ piece
  ++ js "&plot=full".

Definition fetchFromOMDb (title_ : jsstring) : M movie :=
  match OMDB w with
  | Some ((_ :: _) as key) =>
    piece ← lift (encodeURIComponent title_);
    let url := omdb_url key piece in
    json ← perform (HttpGet url) (http_get_json w url);
    if decide (Response json = Some (js "False"))
    then throw (Error (or_else (Error_ json) (js "OMDb not found")))
    else ret {|
      director := or_else (Director json) [];
      plot := or_else (Plot json) [];
      genres :=
        filter (fun g => negb (falsy g) = true)
          (map trim (split_comma (or_else (Genre json) [])));
      released := or_else (Released json) [];
      writers := or_else (Writer json) [];
      actors := or_else (Actors json) []
    |}
  | _ => throw (Error (js "OMDB_API_KEY 누락"))
  end.

Definition title_name : jsstring := Eval vm_compute in js "제목".

(** [getTitle(notionPage)] with the default property name. *)
Definition getTitle (notionPage : page) : jsstring :=
  let prop : option property :=
    match properties notionPage with
    | Some ps => ps !! title_name
    | None => None
    end in
  let frags : option (list fragment) :=
    match prop with Some p => title p | None => None end in
  let first : option jsstring :=
    match frags with Some (t :: _) => plain_text t | _ => None end in
  let all : option jsstring :=
    match frags with
    | Some ts => Some (join [] (map (fun t => default [] (plain_text t)) ts))
    | None => None
    end in
  let text := or_else first (or_else all []) in
  trim text.

Definition asRichText (content : jsstring) : option property_value :=
  Some (rich_text content).

Definition asMultiSelect (names : list jsstring) : option property_value :=
  Some (multi_select names).

Definition asDate (iso : option jsstring) : option property_value :=
  match iso with
  | Some ((_ :: _) as s) => Some (date s)
  | _ => None
  end.

Definition parseReleasedToISO (released_ : jsstring) : option jsstring :=
  let d := if falsy released_ then None else Some (Date_parse w released_) in
  match d with
  | Some (Some t) => Some (slice0 10 (toISOString t))
  | _ => None
  end.

(** The request as the handler reads it: [req.json()], [None] when it
    rejects, and the [x-notion-page-id] header, [None] when there is none. *)
Record request := {
  req_json : option json;
  header_page_id : option jsstring
}.

(** [body.page_id]: reading a member of [null] throws. *)
Definition body_page_id (body : json) : result (option json) :=
  match body with
  | JNull =>
    inl (TypeError (js "Cannot read properties of null (reading 'page_id')"))
  | JObj members => inr (assoc (js "page_id") members)
  | _ => inr None
  end.

Definition missing_page_id : jsstring :=
  Eval vm_compute in js "page_id 누락 (JSON body.page_id 또는 X-Notion-Page-Id 헤더 사용)".

Definition empty_title : jsstring :=
  Eval vm_compute in js "노션 페이지의 '제목' 속성이 비어 있음".

(** Step 1 of the handler: the page identifier. *)
Definition resolve_page_id (req : request) : result json :=
  let body := default (JObj []) (req_json req) in
  match body_page_id body with
  | inl e => inl e
  | inr v =>
    let pageId :=
      if truthy v then default JNull v
      else JStr (trim (default [] (header_page_id req))) in
    if truthy (Some pageId) then inr pageId else inl (Error missing_page_id)
  end.

(** Steps 4 and 5: the property map that is submitted. *)
Definition build_props (data : movie) : object property_value :=
  let summary := summarizeKorean (plot data) in
  let features := featuresFromData (director data) (genres data) in
  let iso := parseReleasedToISO (released data) in
  let props : object property_value := [
    (js "감독", asRichText (director data));
    (js "줄거리", asRichText summary);
    (js "특징", asRichText features);
    (js "장르", asMultiSelect (genres data));
    (js "개봉일", asDate iso);
    (js "제작/스태프",
     asRichText (js "각본: " ++ writers data ++ js " / 출연: " ++ actors data))
  ] in
  obj_set props (js "상태") (Some (status (js "완료"))).

(** The [try] block of the handler: the title and the property map. *)
Definition handler_try (req : request) : M (jsstring * object property_value) :=
  pageId ← lift (resolve_page_id req);
  page ← perform (NotionRetrieve pageId) (notion_retrieve w pageId);
  let title_ := getTitle page in
  if falsy title_ then throw (Error empty_title)
  else
    data ← fetchFromOMDb title_;
    let props := build_props data in
    perform (NotionUpdate pageId props) (notion_update w pageId props);;
    ret (title_, props).

(** The response: its status and the object that is serialised as its
    body. *)
Inductive response_body :=
| ok_true (title_ : jsstring) (updated : list jsstring)
| ok_false (error : jsstring).

Record response := { code : nat; payload : response_body }.

Definition handler (req : request) : response * list call :=
  match handler_try req [] with
  | (inr (title_, props), tr) =>
    ({| code := 200; payload := ok_true title_ (Object_keys props) |}, tr)
  | (inl e, tr) =>
    ({| code := 500; payload := ok_false (message e) |}, tr)
  end.

End Handler.

(** The member page_id of a body that was parsed and is not null. *)
Definition body_field (req : request) : option json :=
  match req_json req with
  | Some (JObj members) => assoc (js "page_id") members
  | _ => None
  end.

(** A page whose title property holds the given fragments. *)
Definition title_page (frags : list fragment) : page :=
  {| properties := Some {[ title_name := {| title := Some frags |} ]} |}.

Definition text_fragment (s : jsstring) : fragment := {| plain_text := Some s |}.

(** The concatenation of the fragments' texts. *)
Definition title_text (frags : list fragment) : jsstring :=
  join [] (map (fun t => default [] (plain_text t)) frags).

(** ** A host to run the handler on

    An engine whose [Date.parse] reads the provider's format, day, English
    month name and year, as midnight of that day on a clock [offset]
    minutes ahead of UTC, and that reads nothing else. *)
Definition month_names : list jsstring :=
  map js ["Jan"; "Feb"; "Mar"; "Apr"; "May"; "Jun";
          "Jul"; "Aug"; "Sep"; "Oct"; "Nov"; "Dec"]%string.

Fixpoint index_of (x : jsstring) (l : list jsstring) : option nat :=
  match l with
  | [] => None
  | y :: r => if decide (x = y) then Some O else S <$> index_of x r
  end.

Definition is_digit (c : N) : bool := (0x30 <=? c) && (c <=? 0x39).

Definition decimal (s : jsstring) : option Z :=
  match s with
  | [] => None
  | _ =>
    if forallb is_digit s
    then Some (fold_left (fun acc c => (10 * acc + Z.of_N (c - 0x30))%Z) s 0%Z)
    else None
  end.

Definition engine_dmy (offset : Z) (s : jsstring) : option Z :=
  match split_on 0x20 s with
  | [d; m; y] =>
    match decimal d, index_of m month_names, decimal y with
    | Some d, Some m, Some y =>
      if ((1 <=? d) && (d <=? 31))%Z
      then Some (days_from_civil y (Z.of_nat m + 1) d * msPerDay - offset * 60000)%Z
      else None
    | _, _, _ => None
    end
  | _ => None
  end.

Definition die_hard_page : page := title_page [text_fragment (js "Die Hard")].

Definition die_hard_answer (released_ : jsstring) : omdb_json := {|
  Response := Some (js "True");
  Error_ := None;
  Director := Some (js "John McTiernan");
  Plot := Some (js "A New York City police officer tries to save his wife.");
  Genre := Some (js "Action, Thriller");
  Released := Some released_;
  Writer := Some (js "Roderick Thorp, Jeb Stuart");
  Actors := Some (js "Bruce Willis, Alan Rickman")
|}.

Definition not_found_answer (error : option jsstring) : omdb_json := {|
  Response := Some (js "False");
  Error_ := error;
  Director := None; Plot := None; Genre := None; Released := None;
  Writer := None; Actors := None
|}.

(** A host whose clock is [offset] minutes ahead of UTC, with a key, a page
    titled Die Hard and a provider that answers with [answer]. *)
Definition host_at (offset : Z) (key : option jsstring) (answer : omdb_json)
  : World := {|
  OMDB := key;
  Date_parse := engine_dmy offset;
  notion_retrieve := fun _ => inr die_hard_page;
  http_get_json := fun _ => inr answer;
  notion_update := fun _ _ => inr ()
|}.

(** The same host in UTC. *)
Definition host : option jsstring -> omdb_json -> World := host_at 0.

Definition body_request (id : jsstring) : request :=
  {| req_json := Some (JObj [(js "page_id", JStr id)]); header_page_id := None |}.

Definition seven_names : list jsstring :=
  map js ["감독"; "줄거리"; "특징"; "장르"; "개봉일"; "제작/스태프"; "상태"]%string.


(** A genre name as the provider lists it: not empty, without a comma and
    without white space around it. *)
Definition genre_name (g : jsstring) : Prop :=
  g <> [] /\ (0x2C ∉ g) /\ trim g = g.

(** [p] occurs in [s] as a substring. *)
Definition occurs (p s : jsstring) : Prop := exists pre post, s = pre ++ p ++ post.

(** Two plots of 361 code units: the letter a throughout, and 358 times the
    letter a before 입니다. *)
Definition plain_plot : jsstring := replicate 361 0x61.
Definition ibnida_plot : jsstring := replicate 358 0x61 ++ ibnida.

(** The string does not start with white space. *)
Definition starts_clean (s : jsstring) : Prop :=
  match s with
  | [] => True
  | c :: _ => is_space c = false
  end.

(** The text [getTitle] picks from the fragments of a title: the first
    fragment's when that is not empty, else the concatenation. *)
Definition picked_text (frags : list fragment) : jsstring :=
  match frags with
  | t :: _ => or_else (plain_text t) (title_text frags)
  | [] => []
  end.

(** [prop?.title] of the page's 제목 property: its fragments, when the
    page has properties, the property and a title in it. *)
Definition title_fragments (notionPage : page) : option (list fragment) :=
  match properties notionPage with
  | Some ps =>
    match ps !! title_name with
    | Some p => title p
    | None => None
    end
  | None => None
  end.

(** The record that [fetchFromOMDb] builds from the provider's answer. *)
Definition movie_of (json : omdb_json) : movie := {|
  director := or_else (Director json) [];
  plot := or_else (Plot json) [];
  genres :=
    filter (fun g => negb (falsy g) = true)
      (map trim (split_comma (or_else (Genre json) [])));
  released := or_else (Released json) [];
  writers := or_else (Writer json) [];
  actors := or_else (Actors json) []
|}.

(** Hosts on which one of the three calls is rejected with [e], and a host
    whose page has a title of white space. *)
Definition host_retrieve_rejects (e : exn) : World := {|
  OMDB := Some (js "k");
  Date_parse := engine_dmy 0;
  notion_retrieve := fun _ => inl e;
  http_get_json := fun _ => inr (die_hard_answer []);
  notion_update := fun _ _ => inr ()
|}.

Definition host_provider_rejects (e : exn) : World := {|
  OMDB := Some (js "k");
  Date_parse := engine_dmy 0;
  notion_retrieve := fun _ => inr die_hard_page;
  http_get_json := fun _ => inl e;
  notion_update := fun _ _ => inr ()
|}.

Definition host_update_rejects (e : exn) : World := {|
  OMDB := Some (js "k");
  Date_parse := engine_dmy 0;
  notion_retrieve := fun _ => inr die_hard_page;
  http_get_json := fun _ => inr (die_hard_answer []);
  notion_update := fun _ _ => inl e
|}.

Definition host_of_page (pg : page) : World := {|
  OMDB := Some (js "k");
  Date_parse := engine_dmy 0;
  notion_retrieve := fun _ => inr pg;
  http_get_json := fun _ => inr (die_hard_answer []);
  notion_update := fun _ _ => inr ()
|}.

(** The day number that a date written as year, month and day, with
    hyphens between them, stands for. *)
Definition read_iso_date (s : jsstring) : option Z :=
  match split_on 0x2D s with
  | [y; m; d] =>
    match decimal y, decimal m, decimal d with
    | Some y, Some m, Some d => Some (days_from_civil y m d)
    | _, _, _ => None
    end
  | _ => None
  end.

(** The date part of [toISOString]. *)
Definition iso_date_part (ymd : Z * Z * Z) : jsstring :=
  let '(y, m, d) := ymd in
  iso_year y ++ js "-" ++ digits 2 m ++ js "-" ++ digits 2 d.

(** A host whose engine reads every string as the instant [t]. *)
Definition host_reading (t : Z) : World := {|
  OMDB := Some (js "k");
  Date_parse := fun _ => Some t;
  notion_retrieve := fun _ => inr die_hard_page;
  http_get_json := fun _ => inr (die_hard_answer []);
  notion_update := fun _ _ => inr ()
|}.

(** A host in UTC whose engine also reads one time of day in the format of
    [toISOString]. *)
Definition host_with_time : World := {|
  OMDB := Some (js "k");
  Date_parse := fun s =>
    if decide (s = js "1988-06-20T23:59:59Z") then Some 582854399000%Z
    else engine_dmy 0 s;
  notion_retrieve := fun _ => inr die_hard_page;
  http_get_json := fun _ => inr (die_hard_answer []);
  notion_update := fun _ _ => inr ()
|}.

(** What may stand in an encoded component: the characters that are left
    as they are, and the percent sign of an escape. *)
Definition url_safe (c : N) : bool := is_unreserved c || (c =? 0x25).

(** A code unit is a number below 2^16. *)
Definition code_unit (c : N) : Prop := c < 0x10000.

(** The only white space of the string is the space U+0020, never two in a
    row, and none at the start when [after_space] says that a space came
    before. *)
Fixpoint single_spaced (after_space : bool) (s : jsstring) : bool :=
  match s with
  | [] => true
  | c :: r =>
    if is_space c
    then (c =? 0x20) && negb after_space && single_spaced true r
    else single_spaced false r
  end.

(** Unfolds the steps of a computation in [M]. *)
Ltac run_M :=
  unfold mbind, M_bind, bind, lift, perform, throw, ret.

Close Scope N_scope.

(** ** Properties of the summarizer *)

Section Summarizer.

Implicit Types s t plot : jsstring.

Lemma starts_with_spec p s :
  starts_with p s = true <-> exists r, s = p ++ r.
Proof.
  revert s; induction p as [|a p IH]; intros s; simpl.
  - split; [eauto | trivial].
  - destruct s as [|b s]; simpl.
    + split; [discriminate | intros [r Hr]; discriminate].
    + rewrite andb_true_iff, N.eqb_eq, IH. split.
      * intros [-> [r ->]]. eauto.
      * intros [r Hr]. injection Hr as -> ->. eauto.
Qed.

Lemma marker_here_spec s :
  marker_here s = true <-> exists t, s = hada ++ t /\ closer_opt t.
Proof.
  unfold marker_here. rewrite andb_true_iff, starts_with_spec. split.
  - intros [[r ->] H]. exists r. split; [reflexivity|].
    change (drop 2 (hada ++ r)) with r in H.
    destruct r as [|c [|d r]]; [left; reflexivity | right; eauto | discriminate].
  - intros [t [-> Ht]]. split; [eauto|].
    change (drop 2 (hada ++ t)) with t.
    destruct Ht as [-> | [c [-> Hc]]]; [reflexivity | exact Hc].
Qed.

Lemma ends_with_marker_spec s :
  ends_with_marker s = true <->
  exists pre t, s = pre ++ hada ++ t /\ closer_opt t.
Proof.
  induction s as [|c s IH].
  - split; [discriminate|].
    intros (pre & t & H & _). destruct pre; discriminate.
  - cbn [ends_with_marker]. rewrite orb_true_iff, marker_here_spec, IH. split.
    + intros [(t & -> & Ht) | (pre & t & -> & Ht)].
      * exists [], t. auto.
      * exists (c :: pre), t. auto.
    + intros (pre & t & H & Ht). destruct pre as [|d pre].
      * left. exists t. auto.
      * right. injection H as -> ->. eauto.
Qed.

Lemma ends_with_marker_appended s : ends_with_marker (s ++ js "하다.") = true.
Proof.
  apply ends_with_marker_spec. exists s, [46%N]. split; [reflexivity|].
  right. exists 46%N. auto.
Qed.

Lemma ends_with_marker_ellipsis s :
  ends_with_marker (s ++ [ellipsis]) = true <-> hada `suffix_of` s.
Proof.
  rewrite ends_with_marker_spec. split.
  - intros (pre & t & H & [-> | (c & -> & Hc)]).
    + rewrite app_nil_r in H.
      change hada with ([54616%N] ++ [45796%N]) in H.
      rewrite !app_assoc in H. apply app_inj_tail in H as [_ H]. discriminate.
    + rewrite app_assoc in H. apply app_inj_tail in H as [-> _].
      exists pre. reflexivity.
  - intros [pre ->]. exists pre, [ellipsis]. split.
    + rewrite <- app_assoc. reflexivity.
    + right. exists ellipsis. auto.
Qed.

Lemma cleaned_nonempty plot : 360 < length (cleaned plot) -> falsy plot = false.
Proof. destruct plot; [cbn; lia | reflexivity]. Qed.

(** C9: for the empty plot the summarizer returns the fixed sentence
    작품 정보가 부족하여 간단 요약을 제공하지 못하다. of the source, 28 code units as
    they stand there, and nothing of the cleaning, the cut or the final
    marker is applied to it. *)
Theorem summarizeKorean_empty :
  summarizeKorean (js "") = js "작품 정보가 부족하여 간단 요약을 제공하지 못하다."
  /\ length (summarizeKorean (js "")) = 28.
Proof. split; reflexivity. Qed.

(** C7: whatever the plot, the summary ends with the marker 하다, followed
    by nothing or by exactly one of . ? ! and the ellipsis; for a plot that
    is not empty the intermediate result is returned as it is when it
    already ends that way, and with 하다. appended otherwise. *)
Theorem summarizeKorean_ends_with_marker plot :
  (exists pre t, summarizeKorean plot = pre ++ hada ++ t /\ closer_opt t)
  /\ (plot <> [] ->
      summarizeKorean plot =
        if ends_with_marker (truncate (cleaned plot))
        then truncate (cleaned plot)
        else truncate (cleaned plot) ++ js "하다.").
Proof.
  split.
  - apply ends_with_marker_spec. unfold summarizeKorean.
    destruct (falsy plot); [reflexivity|]. cbv zeta.
    destruct (ends_with_marker (truncate (cleaned plot))) eqn:E; [exact E|].
    apply ends_with_marker_appended.
  - intros Hne. unfold summarizeKorean. destruct plot; [congruence | reflexivity].
Qed.

(** C1, as the code has it: when the cleaned plot (white space collapsed,
    terminators and 입니다 rewritten) is longer than 360 code units, the
    summary starts with its first 356 code units and the ellipsis; it is
    these 357 code units when the kept part ends with 하다, and otherwise
    하다. follows the ellipsis, 360 code units in all. *)
Theorem summarizeKorean_long plot :
  360 < length (cleaned plot) ->
  length (slice0 356 (cleaned plot)) = 356
  /\ summarizeKorean plot =
       slice0 356 (cleaned plot) ++ [ellipsis]
       ++ (if bool_decide (hada `suffix_of` slice0 356 (cleaned plot))
           then [] else js "하다.")
  /\ length (summarizeKorean plot) =
       if bool_decide (hada `suffix_of` slice0 356 (cleaned plot))
       then 357 else 360.
Proof.
  intros Hlen.
  assert (Hk : length (slice0 356 (cleaned plot)) = 356).
  { unfold slice0. rewrite length_take. lia. }
  assert (Hsum : summarizeKorean plot =
       slice0 356 (cleaned plot) ++ [ellipsis]
       ++ (if bool_decide (hada `suffix_of` slice0 356 (cleaned plot))
           then [] else js "하다.")).
  { unfold summarizeKorean. rewrite (cleaned_nonempty _ Hlen). cbv zeta.
    unfold truncate. destruct (Nat.ltb_spec 360 (length (cleaned plot))); [|lia].
    case_bool_decide as Hs.
    - apply ends_with_marker_ellipsis in Hs. rewrite Hs. reflexivity.
    - destruct (ends_with_marker _) eqn:E.
      + apply ends_with_marker_ellipsis in E. contradiction.
      + rewrite <- app_assoc. reflexivity. }
  split; [exact Hk|]. split; [exact Hsum|].
  rewrite Hsum, !length_app, Hk. case_bool_decide; reflexivity.
Qed.

Lemma summarizeKorean_long_witness :
  length (summarizeKorean plain_plot) = 360.
Proof.
  destruct (summarizeKorean_long plain_plot) as (_ & _ & H).
  - vm_compute. lia.
  - rewrite H. reflexivity.
Defined.

(** C1 as the specification states it fails: the plot of 361 letters a is
    its own cleaned form, longer than 360, and its summary has 360 code
    units and ends with a period, the ellipsis being the 357th. *)
Lemma summarizeKorean_long_not_357 :
  360 < length (cleaned_spec plain_plot)
  /\ 360 < length (cleaned plain_plot)
  /\ length (summarizeKorean plain_plot) <> 357
  /\ last (summarizeKorean plain_plot) <> Some ellipsis
  /\ summarizeKorean plain_plot =
       replicate 356 97%N ++ [ellipsis] ++ js "하다.".
Proof.
  repeat split; try (vm_compute; lia); vm_compute; congruence.
Qed.

(** *** The 입니다 rewriting *)

Lemma ibnida_match_front s :
  re_literal ibnida s = Some 3 /\ (exists r, s = ibnida ++ r)
  \/ re_literal ibnida s = None /\ starts_with ibnida s = false.
Proof.
  unfold re_literal. destruct (starts_with ibnida s) eqn:E.
  - left. split; [reflexivity|]. apply starts_with_spec. exact E.
  - right. auto.
Qed.

(** A front of the string that is not yet a full 입니다 does not match,
    whatever follows it. *)
Lemma ibnida_match_app c a b :
  starts_with ibnida (c :: a ++ ibnida ++ b) = starts_with ibnida (c :: a).
Proof.
  destruct a as [|c1 [|c2 a]]; cbn.
  - destruct (N.eqb_spec 51077 c); reflexivity.
  - destruct (N.eqb_spec 51077 c); [|reflexivity].
    destruct (N.eqb_spec 45768 c1); reflexivity.
  - reflexivity.
Qed.

(** A scan across a segment [p] that no match reaches into: the scan of
    the front, what the scan makes of the segment, and the scan of the
    rest. *)
Lemma replace_scan_segment (m : matcher) rep p q :
  (forall c a b, m (c :: a ++ p ++ b) = m (c :: a)) ->
  (forall s n, m s = Some n -> n <= length s) ->
  (forall b, replace_scan m rep 0 (p ++ b) = q ++ replace_scan m rep 0 b) ->
  forall a b skip,
    skip <= length a ->
    replace_scan m rep skip (a ++ p ++ b)
    = replace_scan m rep skip a ++ q ++ replace_scan m rep 0 b.
Proof.
  intros Hfront Hlen Hseg a b.
  induction a as [|c a IH]; intros skip Hskip.
  - assert (skip = 0) as -> by (simpl in Hskip; lia). apply Hseg.
  - cbn [app replace_scan]. destruct skip as [|k].
    + rewrite Hfront. destruct (m (c :: a)) as [[|n]|] eqn:E.
      * rewrite IH by lia. reflexivity.
      * apply Hlen in E. simpl in E.
        rewrite IH by lia. rewrite <- app_assoc. reflexivity.
      * rewrite IH by lia. reflexivity.
    + simpl in Hskip. apply IH. lia.
Qed.

Lemma space_run_le s : space_run s <= length s.
Proof.
  induction s as [|c s IH]; [reflexivity|]. simpl.
  destruct (is_space c); lia.
Qed.

Lemma space_run_front a b : space_run (a ++ ibnida ++ b) = space_run a.
Proof.
  induction a as [|c a IH]; [reflexivity|]. cbn [app space_run].
  rewrite IH. reflexivity.
Qed.

Lemma rewrite_scan_app a b skip :
  skip <= length a ->
  replace_scan (re_literal ibnida) hada skip (a ++ ibnida ++ b)
  = replace_scan (re_literal ibnida) hada skip a ++ hada
    ++ replace_scan (re_literal ibnida) hada 0 b.
Proof.
  apply replace_scan_segment.
  - intros c a' b'. unfold re_literal. rewrite ibnida_match_app. reflexivity.
  - intros s n. destruct (ibnida_match_front s) as [[-> [r ->]] | [-> _]];
      [|discriminate].
    intros H. injection H as <-. rewrite length_app. simpl. lia.
  - reflexivity.
Qed.

Lemma rewrite_ibnida_app a b :
  rewrite_ibnida (a ++ ibnida ++ b) = rewrite_ibnida a ++ hada ++ rewrite_ibnida b.
Proof. apply rewrite_scan_app. lia. Qed.

Lemma collapse_spaces_app a b :
  collapse_spaces (a ++ ibnida ++ b)
  = collapse_spaces a ++ ibnida ++ collapse_spaces b.
Proof.
  apply replace_scan_segment; [| |reflexivity|lia].
  - intros c a' b'. unfold re_spaces. cbn [space_run].
    rewrite space_run_front. reflexivity.
  - intros s n. unfold re_spaces. pose proof (space_run_le s).
    destruct (space_run s); [discriminate|]. intros E. injection E as <-. lia.
Qed.

Lemma rewrite_terminators_app a b :
  rewrite_terminators (a ++ ibnida ++ b)
  = rewrite_terminators a ++ ibnida ++ rewrite_terminators b.
Proof.
  apply replace_scan_segment; [| |reflexivity|lia].
  - intros c a' b'. unfold re_terminator_spaces.
    rewrite space_run_front. reflexivity.
  - intros [|c s] n; [discriminate|]. unfold re_terminator_spaces.
    pose proof (space_run_le s).
    destruct (is_terminator c); [|discriminate].
    destruct (space_run s); [discriminate|]. intros E. injection E as <-.
    simpl. lia.
Qed.

(** Every 입니다 of the plot becomes 하다, and the text around it is
    cleaned as it would be alone. *)
Lemma cleaned_app a b : cleaned (a ++ ibnida ++ b) = cleaned a ++ hada ++ cleaned b.
Proof.
  unfold cleaned.
  rewrite collapse_spaces_app, rewrite_terminators_app, rewrite_ibnida_app.
  reflexivity.
Qed.

(** Where the rewritten string starts with a code unit other than 하, that
    code unit was copied from the front of the string. *)
Lemma rewrite_scan_head r x rest :
  replace_scan (re_literal ibnida) hada 0 r = x :: rest ->
  x <> 54616%N ->
  exists r', r = x :: r' /\ rest = replace_scan (re_literal ibnida) hada 0 r'.
Proof.
  destruct r as [|c r]; [discriminate|].
  cbn [replace_scan].
  destruct (ibnida_match_front (c :: r)) as [[-> _] | [-> _]].
  - intros H Hx. injection H as <- _. contradiction.
  - intros H _. injection H as <- <-. eauto.
Qed.

Lemma rewrite_scan_clean s skip :
  ~ occurs ibnida (replace_scan (re_literal ibnida) hada skip s).
Proof.
  revert skip. induction s as [|c s IH]; intros skip (pre & post & H).
  - destruct pre; discriminate.
  - destruct skip as [|k]; cbn [replace_scan] in H.
    + destruct (ibnida_match_front (c :: s)) as [[Hm _] | [Hm Hno]];
        rewrite Hm in H.
      * destruct pre as [|p0 [|p1 pre]]; try discriminate.
        injection H as _ _ H. apply (IH 2). exists pre, post. exact H.
      * destruct pre as [|p0 pre].
        -- injection H as -> H.
           apply rewrite_scan_head in H as (s1 & -> & H); [|discriminate].
           symmetry in H. apply rewrite_scan_head in H as (s2 & -> & _); [|discriminate].
           discriminate Hno.
        -- injection H as _ H. apply (IH 0). exists pre, post. exact H.
    + apply (IH k). exists pre, post. exact H.
Qed.

(** C10: the summarizer also rewrites 입니다: every occurrence is replaced
    by 하다 and none is left in the cleaned plot; the rewriting comes
    after the two steps that the specification lists and before the length
    is compared with 360, so that a plot of 358 letters a and 입니다, 361
    code units after those two steps, is summarised uncut and differently
    from the summary with those two steps alone. *)
Theorem summarizeKorean_rewrites_ibnida :
  (forall a b, cleaned (a ++ ibnida ++ b) = cleaned a ++ hada ++ cleaned b)
  /\ (forall plot, cleaned plot = rewrite_ibnida (cleaned_spec plot)
                   /\ ~ occurs ibnida (cleaned plot))
  /\ occurs ibnida ibnida_plot
  /\ length (cleaned_spec ibnida_plot) = 361
  /\ length (cleaned ibnida_plot) = 360
  /\ summarizeKorean ibnida_plot = replicate 358 97%N ++ hada
  /\ summarizeKorean_spec ibnida_plot
     = replicate 356 97%N ++ [ellipsis] ++ js "하다."
  /\ summarizeKorean (js "그는 학생입니다") = js "그는 학생하다"
  /\ summarizeKorean_spec (js "그는 학생입니다") = js "그는 학생입니다하다.".
Proof.
  split; [exact cleaned_app|].
  split.
  { intros plot. split; [reflexivity|]. apply rewrite_scan_clean. }
  split.
  { exists (replicate 358 97%N), []. unfold ibnida_plot.
    rewrite app_nil_r. reflexivity. }
  repeat split; vm_compute; reflexivity.
Qed.

(** The summary is never longer than 363 code units: 360 of a cleaned plot
    that is not cut, and 하다. behind them. *)
Lemma summarizeKorean_length plot : length (summarizeKorean plot) <= 363.
Proof.
  unfold summarizeKorean. destruct (falsy plot);
    [change (length insufficient) with 28; lia|]. cbv zeta.
  assert (H : length (truncate (cleaned plot)) <= 360).
  { unfold truncate, slice0.
    destruct (Nat.ltb_spec 360 (length (cleaned plot))); [|lia].
    rewrite length_app, length_take. cbn [length]. lia. }
  destruct (ends_with_marker _); [lia|].
  rewrite length_app. change (length (js "하다.")) with 3. lia.
Qed.

End Summarizer.

(** ** Properties of the feature synthesizer *)

Section Features.

Implicit Types director : jsstring.
Implicit Types genres : list jsstring.

(** C8: the feature string is, in this order, the director clause when the
    director is not empty, the clause of the first three genres joined by
    a comma and a space when there is a genre, and the fixed clause
    리듬감 있는 전개, joined by " / "; so the fixed clause always ends the
    string, and it is the whole string when there is neither a director nor
    a genre. *)
Theorem featuresFromData_clauses director genres :
  featuresFromData director genres =
    (if falsy director then [] else js "연출: " ++ director ++ js " / ")
    ++ (match genres with
        | [] => []
        | _ => js "장르 결합: " ++ join (js ", ") (take 3 genres) ++ js " / "
        end)
    ++ js "리듬감 있는 전개"
  /\ js "리듬감 있는 전개" `suffix_of` featuresFromData director genres
  /\ featuresFromData (js "") [] = js "리듬감 있는 전개".
Proof.
  assert (H : featuresFromData director genres =
    (if falsy director then [] else js "연출: " ++ director ++ js " / ")
    ++ (match genres with
        | [] => []
        | _ => js "장르 결합: " ++ join (js ", ") (take 3 genres) ++ js " / "
        end)
    ++ js "리듬감 있는 전개").
  { unfold featuresFromData, push. cbv zeta.
    destruct (falsy director), genres as [|g genres];
      cbn [length app join]; rewrite <- ?app_assoc; reflexivity. }
  split; [exact H|]. split; [|reflexivity].
  rewrite H. rewrite app_assoc. eexists. reflexivity.
Qed.

End Features.

(** ** Properties of the title reader *)

Section Title.

Lemma or_else_Some_nil x : or_else (Some x) [] = x.
Proof. destruct x; reflexivity. Qed.

Lemma getTitle_title_page frags :
  getTitle (title_page frags) =
    trim (match frags with
          | t :: _ => or_else (plain_text t) (title_text frags)
          | [] => []
          end).
Proof.
  unfold getTitle, title_page. cbn [properties].
  rewrite lookup_singleton_eq. cbn [title].
  destruct frags as [|t rest]; [reflexivity|].
  rewrite or_else_Some_nil. reflexivity.
Qed.

(** C2: what [getTitle] does with a title of several fragments: the text of
    the first fragment alone when that is not empty, and the concatenation
    of all fragments only otherwise.  The title "Die " + "Hard" is read as
    Die, not as Die Hard, the trimmed concatenation. *)
Theorem getTitle_first_fragment_only :
  (forall t rest c s,
     plain_text t = Some (c :: s) ->
     getTitle (title_page (t :: rest)) = trim (c :: s))
  /\ (forall t rest,
     or_else (plain_text t) [] = [] ->
     getTitle (title_page (t :: rest)) = trim (title_text (t :: rest)))
  /\ getTitle (title_page [text_fragment (js "Die "); text_fragment (js "Hard")])
     = js "Die"
  /\ trim (title_text [text_fragment (js "Die "); text_fragment (js "Hard")])
     = js "Die Hard"
  /\ getTitle (title_page [text_fragment (js "Die Hard")]) = js "Die Hard".
Proof.
  split.
  { intros t rest c s H. rewrite getTitle_title_page, H. reflexivity. }
  split.
  { intros t rest H. rewrite getTitle_title_page.
    destruct (plain_text t) as [[|c s]|]; [reflexivity | discriminate | reflexivity]. }
  repeat split; rewrite getTitle_title_page; reflexivity.
Qed.

End Title.

(** ** Properties of the metadata fetcher *)


Section Fetcher.

Variable w : World.


Lemma split_on_plain sep g : sep ∉ g -> split_on sep g = [g].
Proof.
  induction g as [|c g IH]; intros H; [reflexivity|].
  apply not_elem_of_cons in H as [Hc Hg]. cbn [split_on].
  destruct (N.eqb_spec c sep); [congruence|]. rewrite IH by exact Hg. reflexivity.
Qed.

Lemma split_on_app sep g r :
  sep ∉ g -> split_on sep (g ++ sep :: r) = g :: split_on sep r.
Proof.
  induction g as [|c g IH]; intros H.
  - cbn [app split_on]. rewrite N.eqb_refl. reflexivity.
  - apply not_elem_of_cons in H as [Hc Hg]. cbn [app split_on].
    destruct (N.eqb_spec c sep); [congruence|]. rewrite IH by exact Hg. reflexivity.
Qed.



End Fetcher.


(** ** Properties of the date parser *)

Section DateParser.

Variable w : World.

Lemma length_digits n x : length (digits n x) = n.
Proof.
  revert x. induction n as [|n IH]; intros x; [reflexivity|].
  cbn [digits]. rewrite length_app, IH. simpl. lia.
Qed.


(** The date of a day number is a date of the calendar, and the day number
    of that date is the one it came from. *)
Lemma civil_from_days_inverse z y m d :
  civil_from_days z = (y, m, d) ->
  days_from_civil y m d = z /\ (1 <= m <= 12)%Z /\ (1 <= d <= 31)%Z.
Proof.
  unfold civil_from_days, days_from_civil. cbv zeta.
  intros H. injection H as <- <- <-.
  repeat match goal with
         | |- context [if ?b then _ else _] => destruct b eqn:?
         end;
    rewrite ?Z.ltb_lt, ?Z.ltb_ge, ?Z.leb_le, ?Z.leb_gt in *;
    Z.div_mod_to_equations; lia.
Qed.

(** The first ten code units of [toISOString] for a four-digit year. *)
Lemma toISOString_date t y m d :
  civil_from_days (t / msPerDay) = (y, m, d) ->
  (0 <= y <= 9999)%Z ->
  slice0 10 (toISOString t) = iso_date y m d.
Proof.
  intros Hc Hy. unfold toISOString. rewrite Hc. unfold iso_year.
  replace ((0 <=? y)%Z && (y <=? 9999)%Z) with true
    by (symmetry; apply andb_true_iff; split; apply Z.leb_le; lia).
  unfold slice0.
  rewrite !(app_assoc (digits 4 y)), !(app_assoc (digits 4 y ++ _)),
    !(app_assoc ((digits 4 y ++ _) ++ _)), !(app_assoc (((digits 4 y ++ _) ++ _) ++ _)).
  rewrite take_app_length'.
  - unfold iso_date. rewrite <- !app_assoc. reflexivity.
  - rewrite !length_app, !length_digits. reflexivity.
Qed.

Lemma toISOString_nonempty t : slice0 10 (toISOString t) <> [].
Proof.
  unfold toISOString. destruct (civil_from_days (t / msPerDay)) as [[y m] d].
  unfold iso_year. destruct ((0 <=? y)%Z && (y <=? 9999)%Z); [|discriminate].
  cbn [digits]. destruct (digits 3 (y / 10)); discriminate.
Qed.

Lemma parseReleasedToISO_Some r t :
  r <> [] -> Date_parse w r = Some t ->
  parseReleasedToISO w r = Some (slice0 10 (toISOString t)).
Proof.
  intros Hr Ht. unfold parseReleasedToISO. destruct r; [congruence|].
  cbn [falsy]. rewrite Ht. reflexivity.
Qed.


End DateParser.


(** The date is that of the instant in UTC: where the engine reads
    20 Jun 1988 as an instant of the day before, as midnight is on a clock
    ahead of UTC, the date is 1988-06-19. *)
Lemma parseReleasedToISO_day_before w t :
  Date_parse w (js "20 Jun 1988") = Some t ->
  (582768000000 - msPerDay <= t < 582768000000)%Z ->
  parseReleasedToISO w (js "20 Jun 1988") = Some (js "1988-06-19").
Proof.
  intros Ht Hrange.
  assert (Hday : (t / msPerDay = 6744)%Z).
  { unfold msPerDay in *. symmetry.
    apply (Z.div_unique_pos t 86400000 6744 (t - 582681600000)); lia. }
  rewrite (parseReleasedToISO_Some w _ t) by (discriminate || exact Ht).
  rewrite (toISOString_date t 1988 6 19); [reflexivity | rewrite Hday; reflexivity | lia].
Qed.

Lemma parseReleasedToISO_day_before_witness :
  parseReleasedToISO (host_at 540 None (die_hard_answer [])) (js "20 Jun 1988")
  = Some (js "1988-06-19").
Proof.
  apply (parseReleasedToISO_day_before _ 582735600000%Z);
    [reflexivity | unfold msPerDay; lia].
Defined.

(** ** Properties of the request handler *)

Section RequestHandler.

Variable w : World.

Lemma asDate_parseReleasedToISO r :
  asDate (parseReleasedToISO w r) = date <$> parseReleasedToISO w r.
Proof.
  unfold parseReleasedToISO. destruct (falsy r); [reflexivity|].
  destruct (Date_parse w r) as [t|]; [|reflexivity].
  pose proof (toISOString_nonempty t) as H. cbn [asDate fmap option_fmap option_map].
  destruct (slice0 10 (toISOString t)); [congruence | reflexivity].
Qed.

Lemma build_props_eq data :
  build_props w data =
    [(js "감독", Some (rich_text (director data)));
     (js "줄거리", Some (rich_text (summarizeKorean (plot data))));
     (js "특징",
      Some (rich_text (featuresFromData (director data) (genres data))));
     (js "장르", Some (multi_select (genres data)));
     (js "개봉일", date <$> parseReleasedToISO w (released data));
     (js "제작/스태프",
      Some (rich_text (js "각본: " ++ writers data ++ js " / 출연: " ++ actors data)));
     (js "상태", Some (status (js "완료")))].
Proof.
  unfold build_props. cbv zeta. rewrite asDate_parseReleasedToISO.
  unfold asRichText, asMultiSelect. reflexivity.
Qed.

(** What a run that answers 200 has done. *)
Lemma handler_try_ok req title_ props tr :
  handler_try w req [] = (inr (title_, props), tr) ->
  exists pageId page data tr1,
    resolve_page_id req = inr pageId
    /\ notion_retrieve w pageId = inr page
    /\ title_ = getTitle page /\ title_ <> []
    /\ fetchFromOMDb w title_ [NotionRetrieve pageId] = (inr data, tr1)
    /\ props = build_props w data
    /\ notion_update w pageId props = inr ()
    /\ tr = tr1 ++ [NotionUpdate pageId props].
Proof.
  unfold handler_try. run_M.
  destruct (resolve_page_id req) as [e|pageId]; [discriminate|].
  destruct (notion_retrieve w pageId) as [e|pg] eqn:Hpg; [discriminate|].
  destruct (getTitle pg) as [|c t] eqn:Ht; [discriminate|]. cbn [falsy].
  destruct (fetchFromOMDb w (c :: t) ([] ++ [NotionRetrieve pageId]))
    as [[e|data] tr1] eqn:Hf; [discriminate|].
  destruct (notion_update w pageId (build_props w data)) as [e|[]] eqn:Hu;
    [discriminate|].
  intros H. injection H as <- <- <-.
  exists pageId, pg, data, tr1. rewrite Ht.
  repeat split; first [assumption | reflexivity | discriminate].
Qed.


(** C4: a body that is the JSON value null is parsed without error, and
    reading its page_id throws: the handler answers 500 with the engine's
    message and has called nothing, whatever the header holds, while the
    same header is used when the body cannot be parsed at all. *)
Theorem handler_null_body header :
  handler w {| req_json := Some JNull; header_page_id := header |}
  = ({| code := 500;
        payload :=
          ok_false (js "Cannot read properties of null (reading 'page_id')") |},
     [])
  /\ resolve_page_id {| req_json := Some JNull; header_page_id := Some (js "abc123") |}
     = inl (TypeError (js "Cannot read properties of null (reading 'page_id')"))
  /\ resolve_page_id {| req_json := None; header_page_id := Some (js "abc123") |}
     = inr (JStr (js "abc123")).
Proof. repeat split. Qed.

(** When the body is not null, the identifier is the body's page_id if
    that is truthy and the trimmed header otherwise, and the handler fails
    for a missing identifier exactly when both are empty, before any call. *)
Lemma resolve_page_id_cases req :
  req_json req <> Some JNull ->
  resolve_page_id req =
    (if truthy (body_field req) then inr (default JNull (body_field req))
     else match trim (default [] (header_page_id req)) with
          | [] => inl (Error missing_page_id)
          | id => inr (JStr id)
          end)
  /\ (resolve_page_id req = inl (Error missing_page_id) <->
      truthy (body_field req) = false
      /\ trim (default [] (header_page_id req)) = [])
  /\ (resolve_page_id req = inl (Error missing_page_id) ->
      handler w req = ({| code := 500; payload := ok_false missing_page_id |}, [])).
Proof.
  intros Hnull.
  assert (H : resolve_page_id req =
    (if truthy (body_field req) then inr (default JNull (body_field req))
     else match trim (default [] (header_page_id req)) with
          | [] => inl (Error missing_page_id)
          | id => inr (JStr id)
          end)).
  { unfold resolve_page_id, body_field.
    destruct (req_json req) as [[| | | | |members]|]; try congruence;
      simpl; try (destruct (trim _); reflexivity).
    destruct (assoc (js "page_id") members) as [j|];
      [|simpl; destruct (trim _); reflexivity].
    destruct (truthy (Some j)) eqn:E.
    - change (default JNull (Some j)) with j. simpl in E. rewrite E. reflexivity.
    - simpl. destruct (trim _); reflexivity. }
  split; [exact H|]. split.
  - rewrite H. destruct (truthy (body_field req)).
    + split; [discriminate | intros [? _]; discriminate].
    + destruct (trim _); split; try discriminate; auto. intros [_ ?]. discriminate.
  - intros E. unfold handler, handler_try. run_M. rewrite E. reflexivity.
Qed.

Lemma fetchFromOMDb_calls title_ tr :
  (exists e, fetchFromOMDb w title_ tr = (inl e, tr))
  \/ exists r url, fetchFromOMDb w title_ tr = (r, tr ++ [HttpGet url]).
Proof.
  unfold fetchFromOMDb. destruct (OMDB w) as [[|c key]|]; [left; eauto | | left; eauto].
  run_M. destruct (encodeURIComponent title_) as [e|piece]; [left; eauto|].
  right. destruct (http_get_json w _) as [e|answer]; [eauto|].
  destruct (decide _); eauto.
Qed.

(** The handler answers 200 or 500; its calls go out in the order page,
    provider, update, each after the one before it has answered, and on
    200 all three have gone out. *)
Lemma handler_calls req :
  (code (fst (handler w req)) = 200
   /\ exists id url props,
        snd (handler w req) = [NotionRetrieve id; HttpGet url; NotionUpdate id props])
  \/ (code (fst (handler w req)) = 500
      /\ exists id url props,
           snd (handler w req)
             `prefix_of` [NotionRetrieve id; HttpGet url; NotionUpdate id props]).
Proof.
  unfold handler, handler_try. run_M.
  destruct (resolve_page_id req) as [e|id].
  { right. split; [reflexivity|]. exists JNull, [], []. apply prefix_nil. }
  destruct (notion_retrieve w id) as [e|pg].
  { right. split; [reflexivity|]. exists id, [], []. eexists. reflexivity. }
  destruct (falsy (getTitle pg)).
  { right. split; [reflexivity|]. exists id, [], []. eexists. reflexivity. }
  destruct (fetchFromOMDb_calls (getTitle pg) ([] ++ [NotionRetrieve id]))
    as [[e ->] | (r & url & ->)].
  { right. split; [reflexivity|]. exists id, [], []. eexists. reflexivity. }
  destruct r as [e|data].
  { right. split; [reflexivity|]. exists id, url, []. eexists. reflexivity. }
  destruct (notion_update w id (build_props w data)) as [e|[]].
  - right. split; [reflexivity|]. exists id, url, (build_props w data).
    eexists []. rewrite app_nil_r. reflexivity.
  - left. split; [reflexivity|]. exists id, url, (build_props w data). reflexivity.
Qed.

(** A provider that answers with its not-found marker makes the handler
    answer 500 with the provider's message, or with OMDb not found when
    there is none, after the page and the provider have been called and
    without any update. *)
Lemma handler_not_found req id pg key piece answer :
  resolve_page_id req = inr id ->
  notion_retrieve w id = inr pg ->
  getTitle pg <> [] ->
  OMDB w = Some key -> key <> [] ->
  encodeURIComponent (getTitle pg) = inr piece ->
  http_get_json w (omdb_url key piece) = inr answer ->
  Response answer = Some (js "False") ->
  handler w req =
    ({| code := 500;
        payload := ok_false (match Error_ answer with
                             | Some [] | None => js "OMDb not found"
                             | Some m => m
                             end) |},
     [NotionRetrieve id; HttpGet (omdb_url key piece)]).
Proof.
  intros Hid Hpg Ht Hkey Hne Henc Hget HR.
  unfold handler, handler_try. run_M. rewrite Hid, Hpg.
  destruct (getTitle pg) as [|c t] eqn:E; [congruence|]. cbn [falsy].
  unfold fetchFromOMDb. rewrite Hkey. destruct key as [|k key]; [congruence|].
  run_M. rewrite Henc, Hget, decide_True by exact HR.
  destruct (Error_ answer) as [[|e m]|]; reflexivity.
Qed.

End RequestHandler.



Lemma resolve_page_id_cases_witness :
  resolve_page_id {| req_json := None; header_page_id := Some (js " abc123 ") |}
    = inr (JStr (js "abc123"))
  /\ handler (host None (die_hard_answer []))
       {| req_json := Some (JObj [(js "page_id", JStr (js ""))]);
          header_page_id := Some (js "  ") |}
     = ({| code := 500; payload := ok_false missing_page_id |}, []).
Proof.
  split.
  - rewrite (proj1 (resolve_page_id_cases (host None (die_hard_answer []))
                      {| req_json := None; header_page_id := Some (js " abc123 ") |}
                      ltac:(discriminate))).
    reflexivity.
  - destruct (resolve_page_id_cases (host None (die_hard_answer []))
                {| req_json := Some (JObj [(js "page_id", JStr (js ""))]);
                   header_page_id := Some (js "  ") |}
                ltac:(discriminate)) as (_ & Hiff & Hresp).
    apply Hresp. apply Hiff. split; reflexivity.
Defined.

Lemma handler_not_found_witness :
  handler (host (Some (js "k")) (not_found_answer (Some (js "Movie not found!"))))
    (body_request (js "abc123"))
  = ({| code := 500; payload := ok_false (js "Movie not found!") |},
     [NotionRetrieve (JStr (js "abc123"));
      HttpGet (js "https://www.omdbapi.com/?apikey=k&t=Die%20Hard&plot=full")]).
Proof.
  apply (handler_not_found
           (host (Some (js "k")) (not_found_answer (Some (js "Movie not found!"))))
           (body_request (js "abc123")) (JStr (js "abc123")) die_hard_page
           (js "k") (js "Die%20Hard") (not_found_answer (Some (js "Movie not found!"))));
    try reflexivity; discriminate.
Defined.


(** ** White space around a string *)

Section Trim.

Implicit Types s : jsstring.

Lemma trimStart_clean s : starts_clean (trimStart s).
Proof.
  induction s as [|c s IH]; [exact I|]. cbn [trimStart].
  destruct (is_space c) eqn:E; [exact IH | exact E].
Qed.

Lemma trimStart_fixed s : starts_clean s -> trimStart s = s.
Proof. destruct s as [|c s]; [reflexivity|]. cbn. intros ->. reflexivity. Qed.

(** What [trimStart] drops is white space, and what it keeps is the rest. *)
Lemma trimStart_split s :
  exists k, s = k ++ trimStart s /\ forallb is_space k = true.
Proof.
  induction s as [|c s (k & Hk & Hs)]; [exists []; auto|].
  cbn [trimStart]. destruct (is_space c) eqn:E.
  - exists (c :: k). cbn. rewrite E, Hs. split; [f_equal; exact Hk | reflexivity].
  - exists []. auto.
Qed.

Lemma trimStart_nil s : trimStart s = [] <-> forallb is_space s = true.
Proof.
  induction s as [|c s IH]; [tauto|]. cbn.
  destruct (is_space c); [exact IH|]. split; discriminate.
Qed.

Lemma trimEnd_prefix s : trimEnd s `prefix_of` s.
Proof.
  unfold trimEnd. destruct (trimStart_split (reverse s)) as (k & Hk & _).
  exists (reverse k). rewrite <- (reverse_involutive s), Hk at 1.
  rewrite reverse_app. reflexivity.
Qed.

Lemma trimStart_suffix s : trimStart s `suffix_of` s.
Proof. destruct (trimStart_split s) as (k & Hk & _). exists k. exact Hk. Qed.

Lemma trimEnd_clean s : starts_clean s -> starts_clean (trimEnd s).
Proof.
  intros Hs. destruct (trimEnd_prefix s) as [k Hk].
  destruct (trimEnd s) as [|c r]; [exact I|].
  rewrite Hk in Hs. exact Hs.
Qed.

Lemma trimEnd_fixed s : starts_clean (reverse s) -> trimEnd s = s.
Proof.
  intros H. unfold trimEnd. rewrite trimStart_fixed by exact H.
  apply reverse_involutive.
Qed.

Lemma trim_ends_clean s : starts_clean (trim s) /\ starts_clean (reverse (trim s)).
Proof.
  split.
  - apply trimEnd_clean, trimStart_clean.
  - unfold trim, trimEnd. rewrite reverse_involutive. apply trimStart_clean.
Qed.

(** Trimming twice is trimming once. *)
Lemma trim_idempotent s : trim (trim s) = trim s.
Proof.
  destruct (trim_ends_clean s) as [H1 H2].
  unfold trim at 1. rewrite trimStart_fixed by exact H1.
  apply trimEnd_fixed. exact H2.
Qed.

Lemma trim_elem_of s c : c ∈ trim s -> c ∈ s.
Proof.
  intros H. unfold trim in H.
  destruct (trimEnd_prefix (trimStart s)) as [k Hk].
  destruct (trimStart_suffix s) as [k' Hk'].
  rewrite Hk', Hk. set_solver.
Qed.

(** Trimming leaves nothing exactly of the strings of white space. *)
Lemma trim_nil s : trim s = [] <-> forallb is_space s = true.
Proof.
  unfold trim, trimEnd. split.
  - intros H. apply (f_equal reverse) in H.
    rewrite reverse_involutive in H. cbn in H.
    apply trimStart_nil in H. rewrite forallb_forall in H.
    destruct (trimStart_split s) as (k & Hk & Hs).
    assert (Hn : trimStart s = []).
    { pose proof (trimStart_clean s) as Hc.
      destruct (trimStart s) as [|c r]; [reflexivity|]. cbn in Hc.
      rewrite (H c) in Hc; [discriminate|].
      apply list_elem_of_In, elem_of_reverse. left. }
    rewrite Hn, app_nil_r in Hk. subst k. exact Hs.
  - intros H. apply trimStart_nil in H. rewrite H. reflexivity.
Qed.

End Trim.

(** ** Further properties of the title reader *)

Section TitleEdges.

Lemma getTitle_picked notionPage :
  getTitle notionPage = trim (from_option picked_text [] (title_fragments notionPage)).
Proof.
  unfold getTitle, title_fragments.
  destruct (properties notionPage) as [ps|]; [|reflexivity].
  destruct (ps !! title_name) as [p|]; [|reflexivity].
  destruct (title p) as [frags|]; [|reflexivity].
  cbn [from_option]. rewrite or_else_Some_nil.
  destruct frags; reflexivity.
Qed.

(** The title that is read never has white space at its start or at its
    end, and trimming it again changes nothing; it is empty exactly when the
    page has no title fragments to read (no properties, no 제목 property, no
    title in it) or the text picked from them is white space only. *)
Theorem getTitle_trimmed notionPage :
  trim (getTitle notionPage) = getTitle notionPage
  /\ starts_clean (getTitle notionPage)
  /\ starts_clean (reverse (getTitle notionPage))
  /\ (getTitle notionPage = [] <->
      match title_fragments notionPage with
      | None => True
      | Some frags => forallb is_space (picked_text frags) = true
      end).
Proof.
  rewrite getTitle_picked. split; [apply trim_idempotent|].
  split; [apply trim_ends_clean|]. split; [apply trim_ends_clean|].
  rewrite trim_nil. destruct (title_fragments notionPage); cbn [from_option]; tauto.
Qed.

End TitleEdges.

(** ** Further properties of the metadata fetcher *)

Section Genres.

Variable w : World.

Lemma split_on_no_sep sep s : Forall (fun x => sep ∉ x) (split_on sep s).
Proof.
  induction s as [|c s IH]; cbn [split_on].
  - constructor; [apply not_elem_of_nil | constructor].
  - destruct (N.eqb_spec c sep) as [->|Hne].
    + constructor; [apply not_elem_of_nil | exact IH].
    + destruct (split_on sep s) as [|x xs].
      * constructor; [|constructor].
        intros H. apply elem_of_cons in H as [H|H]; [congruence | inversion H].
      * apply Forall_cons in IH as [Hx Hxs]. constructor; [|exact Hxs].
        intros H. apply elem_of_cons in H as [H|H]; [congruence | contradiction].
Qed.

(** What a successful fetch returns. *)
Lemma fetchFromOMDb_ok title_ tr m tr' :
  fetchFromOMDb w title_ tr = (inr m, tr') ->
  exists key piece answer,
    OMDB w = Some key /\ key <> []
    /\ encodeURIComponent title_ = inr piece
    /\ http_get_json w (omdb_url key piece) = inr answer
    /\ Response answer <> Some (js "False")
    /\ m = movie_of answer
    /\ tr' = tr ++ [HttpGet (omdb_url key piece)].
Proof.
  unfold fetchFromOMDb. destruct (OMDB w) as [[|c key]|]; try discriminate.
  run_M. destruct (encodeURIComponent title_) as [e|piece]; [discriminate|].
  destruct (http_get_json w _) as [e|answer] eqn:Hget; [discriminate|].
  destruct (decide _) as [|HR]; [discriminate|].
  intros H. injection H as <- <-.
  exists (c :: key), piece, answer.
  repeat split; first [assumption | reflexivity | discriminate].
Qed.

Lemma movie_of_genres_clean answer : Forall genre_name (genres (movie_of answer)).
Proof.
  cbn [genres movie_of]. apply Forall_forall. intros g Hg.
  apply list_elem_of_filter in Hg as [Hne Hin].
  apply list_elem_of_In, in_map_iff in Hin as (x & <- & Hx).
  apply list_elem_of_In in Hx.
  split; [|split].
  - intros E. rewrite E in Hne. discriminate.
  - intros Hc. apply trim_elem_of in Hc.
    pose proof (split_on_no_sep 44%N (or_else (Genre answer) [])) as Hs.
    rewrite Forall_forall in Hs. exact (Hs x Hx Hc).
  - apply trim_idempotent.
Qed.

(** Whatever the provider sends as Genre, the genres that are returned are
    names that are not empty, hold no comma and have no white space around
    them. *)
Theorem fetchFromOMDb_genres_clean title_ tr m tr' :
  fetchFromOMDb w title_ tr = (inr m, tr') ->
  Forall genre_name (genres m).
Proof.
  intros H. apply fetchFromOMDb_ok in H as (key & piece & answer & _ & _ & _ & _ & _ & -> & _).
  apply movie_of_genres_clean.
Qed.

End Genres.

Lemma fetchFromOMDb_genres_clean_witness :
  exists m tr,
    fetchFromOMDb
      (host (Some (js "k")) (die_hard_answer []))
      (js "Die Hard") [] = (inr m, tr)
    /\ Forall genre_name (genres m).
Proof.
  exists (movie_of (die_hard_answer [])),
    [HttpGet (js "https://www.omdbapi.com/?apikey=k&t=Die%20Hard&plot=full")].
  split; [reflexivity|].
  apply (fetchFromOMDb_genres_clean
           (host (Some (js "k")) (die_hard_answer [])) (js "Die Hard") []
           (movie_of (die_hard_answer []))
           [HttpGet (js "https://www.omdbapi.com/?apikey=k&t=Die%20Hard&plot=full")]).
  reflexivity.
Defined.

(** ** Further properties of the request handler *)

Section HandlerPaths.

Variable w : World.

Lemma fetchFromOMDb_run title_ tr key piece :
  OMDB w = Some key -> key <> [] ->
  encodeURIComponent title_ = inr piece ->
  fetchFromOMDb w title_ tr =
    (match http_get_json w (omdb_url key piece) with
     | inl e => inl e
     | inr answer =>
       if decide (Response answer = Some (js "False"))
       then inl (Error (or_else (Error_ answer) (js "OMDb not found")))
       else inr (movie_of answer)
     end,
     tr ++ [HttpGet (omdb_url key piece)]).
Proof.
  intros Hkey Hne Henc. unfold fetchFromOMDb. rewrite Hkey.
  destruct key as [|c key]; [congruence|]. run_M. rewrite Henc.
  destruct (http_get_json w _) as [e|answer]; [reflexivity|].
  destruct (decide _); reflexivity.
Qed.

(** The handler up to the provider: with an identifier, a page and a title
    that is not empty, what is left is the fetch and the update. *)
Lemma handler_run req id pg :
  resolve_page_id req = inr id ->
  notion_retrieve w id = inr pg ->
  getTitle pg <> [] ->
  handler w req =
    match fetchFromOMDb w (getTitle pg) [NotionRetrieve id] with
    | (inl e, tr) => ({| code := 500; payload := ok_false (message e) |}, tr)
    | (inr data, tr) =>
      match notion_update w id (build_props w data) with
      | inl e =>
        ({| code := 500; payload := ok_false (message e) |},
         tr ++ [NotionUpdate id (build_props w data)])
      | inr _ =>
        ({| code := 200;
            payload := ok_true (getTitle pg) (Object_keys (build_props w data)) |},
         tr ++ [NotionUpdate id (build_props w data)])
      end
    end.
Proof.
  intros Hid Hpg Ht. unfold handler, handler_try. run_M. rewrite Hid, Hpg.
  destruct (getTitle pg) as [|c t]; [congruence|]. cbn [falsy app].
  destruct (fetchFromOMDb w (c :: t) [NotionRetrieve id]) as [[e|data] tr];
    [reflexivity|].
  destruct (notion_update w id (build_props w data)); reflexivity.
Qed.

(** The handler answers 200 exactly when every step succeeds: an
    identifier, the page, a title that is not empty, a key, a title that
    can be encoded, a provider answer that is not the not-found marker, and
    the update; the answer then carries the trimmed title and the seven
    names, and the three calls are the page, the provider's URL for the
    encoded title and the update with the properties built from the
    answer. *)
Theorem handler_ok_iff req title_ updated tr :
  handler w req = ({| code := 200; payload := ok_true title_ updated |}, tr) <->
  exists id pg key piece answer,
    resolve_page_id req = inr id
    /\ notion_retrieve w id = inr pg
    /\ title_ = getTitle pg /\ title_ <> []
    /\ OMDB w = Some key /\ key <> []
    /\ encodeURIComponent title_ = inr piece
    /\ http_get_json w (omdb_url key piece) = inr answer
    /\ Response answer <> Some (js "False")
    /\ notion_update w id (build_props w (movie_of answer)) = inr ()
    /\ updated = seven_names
    /\ tr = [NotionRetrieve id; HttpGet (omdb_url key piece);
             NotionUpdate id (build_props w (movie_of answer))].
Proof.
  split.
  - unfold handler.
    destruct (handler_try w req []) as [[e|[t props]] tr'] eqn:E; [discriminate|].
    intros H. injection H as <- <- <-.
    apply handler_try_ok in E
      as (id & pg & data & tr1 & Hid & Hpg & -> & Ht & Hf & -> & Hu & ->).
    apply fetchFromOMDb_ok in Hf
      as (key & piece & answer & Hkey & Hne & Henc & Hget & HR & -> & ->).
    exists id, pg, key, piece, answer.
    repeat split; try assumption; reflexivity.
  - intros (id & pg & key & piece & answer & Hid & Hpg & -> & Ht & Hkey & Hne
            & Henc & Hget & HR & Hu & -> & ->).
    rewrite (handler_run req id pg Hid Hpg Ht).
    rewrite (fetchFromOMDb_run _ _ key piece Hkey Hne Henc), Hget.
    rewrite decide_False by exact HR. rewrite Hu.
    rewrite build_props_eq. reflexivity.
Qed.

(** A call that is rejected ends the run: the handler answers 500 with the
    message of the rejection, and no later call goes out; a rejected update
    is answered 500 although the update was submitted. *)
Theorem handler_rejected req id :
  resolve_page_id req = inr id ->
  (forall e, notion_retrieve w id = inl e ->
     handler w req =
       ({| code := 500; payload := ok_false (message e) |}, [NotionRetrieve id]))
  /\ (forall pg key piece,
      notion_retrieve w id = inr pg -> getTitle pg <> [] ->
      OMDB w = Some key -> key <> [] ->
      encodeURIComponent (getTitle pg) = inr piece ->
      (forall e, http_get_json w (omdb_url key piece) = inl e ->
         handler w req =
           ({| code := 500; payload := ok_false (message e) |},
            [NotionRetrieve id; HttpGet (omdb_url key piece)]))
      /\ (forall answer e,
          http_get_json w (omdb_url key piece) = inr answer ->
          Response answer <> Some (js "False") ->
          notion_update w id (build_props w (movie_of answer)) = inl e ->
          handler w req =
            ({| code := 500; payload := ok_false (message e) |},
             [NotionRetrieve id; HttpGet (omdb_url key piece);
              NotionUpdate id (build_props w (movie_of answer))]))).
Proof.
  intros Hid. split.
  - intros e He. unfold handler, handler_try. run_M. rewrite Hid, He. reflexivity.
  - intros pg key piece Hpg Ht Hkey Hne Henc.
    rewrite (handler_run req id pg Hid Hpg Ht).
    rewrite (fetchFromOMDb_run _ _ key piece Hkey Hne Henc). split.
    + intros e He. rewrite He. reflexivity.
    + intros answer e Hget HR Hu. rewrite Hget, decide_False by exact HR.
      rewrite Hu. reflexivity.
Qed.

(** The key is looked for only after the page has been read: without a key
    the handler answers 500 with OMDB_API_KEY 누락 after the page retrieval,
    whatever the title; with a key, a title that cannot be encoded (a lone
    surrogate) is answered 500 with the encoder's message before any
    request to the provider. *)
Theorem handler_before_fetch req id pg :
  resolve_page_id req = inr id ->
  notion_retrieve w id = inr pg ->
  getTitle pg <> [] ->
  (or_else (OMDB w) [] = [] ->
   handler w req =
     ({| code := 500; payload := ok_false (js "OMDB_API_KEY 누락") |},
      [NotionRetrieve id]))
  /\ (forall e, or_else (OMDB w) [] <> [] ->
      encodeURIComponent (getTitle pg) = inl e ->
      handler w req =
        ({| code := 500; payload := ok_false (message e) |}, [NotionRetrieve id])).
Proof.
  intros Hid Hpg Ht. rewrite (handler_run req id pg Hid Hpg Ht).
  unfold fetchFromOMDb. split.
  - intros Hk. destruct (OMDB w) as [[|c key]|]; [reflexivity | discriminate | reflexivity].
  - intros e Hk He. destruct (OMDB w) as [[|c key]|]; try (cbn in Hk; congruence).
    run_M. rewrite He. reflexivity.
Qed.

(** A page without a title to read, or with a title of white space only, is
    answered 500 with the empty-title message after the page retrieval:
    neither the provider nor the update is called. *)
Theorem handler_empty_title req id pg :
  resolve_page_id req = inr id ->
  notion_retrieve w id = inr pg ->
  match title_fragments pg with
  | None => True
  | Some frags => forallb is_space (picked_text frags) = true
  end ->
  handler w req =
    ({| code := 500; payload := ok_false empty_title |}, [NotionRetrieve id]).
Proof.
  intros Hid Hpg Ht.
  assert (E : getTitle pg = []).
  { rewrite getTitle_picked, trim_nil.
    destruct (title_fragments pg); [exact Ht | reflexivity]. }
  unfold handler, handler_try. run_M. rewrite Hid, Hpg, E. reflexivity.
Qed.

End HandlerPaths.

Lemma handler_ok_iff_witness :
  handler (host (Some (js "k")) (die_hard_answer (js "20 Jul 1988")))
    (body_request (js "abc123"))
  = ({| code := 200; payload := ok_true (js "Die Hard") seven_names |},
     [NotionRetrieve (JStr (js "abc123"));
      HttpGet (js "https://www.omdbapi.com/?apikey=k&t=Die%20Hard&plot=full");
      NotionUpdate (JStr (js "abc123"))
        (build_props (host (Some (js "k")) (die_hard_answer (js "20 Jul 1988")))
           (movie_of (die_hard_answer (js "20 Jul 1988"))))]).
Proof.
  apply (proj2 (handler_ok_iff
                  (host (Some (js "k")) (die_hard_answer (js "20 Jul 1988")))
                  (body_request (js "abc123")) _ _ _)).
  exists (JStr (js "abc123")), die_hard_page, (js "k"), (js "Die%20Hard"),
    (die_hard_answer (js "20 Jul 1988")).
  repeat split; try reflexivity; discriminate.
Defined.

Lemma handler_rejected_witness :
  handler (host_retrieve_rejects (Rejected (js "Could not find page")))
    (body_request (js "abc123"))
  = ({| code := 500; payload := ok_false (js "Could not find page") |},
     [NotionRetrieve (JStr (js "abc123"))])
  /\ fst (handler (host_update_rejects (Rejected (js "상태 is not a property")))
            (body_request (js "abc123")))
     = {| code := 500; payload := ok_false (js "상태 is not a property") |}.
Proof.
  split.
  - apply (proj1 (handler_rejected
                    (host_retrieve_rejects (Rejected (js "Could not find page")))
                    (body_request (js "abc123")) (JStr (js "abc123")) eq_refl)
             (Rejected (js "Could not find page"))).
    reflexivity.
  - destruct (proj2 (handler_rejected
                       (host_update_rejects (Rejected (js "상태 is not a property")))
                       (body_request (js "abc123")) (JStr (js "abc123")) eq_refl)
                die_hard_page (js "k") (js "Die%20Hard")
                eq_refl ltac:(discriminate) eq_refl ltac:(discriminate) eq_refl)
      as [_ H].
    rewrite (H (die_hard_answer []) (Rejected (js "상태 is not a property"))
               eq_refl ltac:(discriminate) eq_refl).
    reflexivity.
Defined.

Lemma handler_before_fetch_witness :
  handler (host None (die_hard_answer [])) (body_request (js "abc123"))
  = ({| code := 500; payload := ok_false (js "OMDB_API_KEY 누락") |},
     [NotionRetrieve (JStr (js "abc123"))])
  /\ handler (host_of_page (title_page [text_fragment [0xD800%N]]))
       (body_request (js "abc123"))
     = ({| code := 500; payload := ok_false (js "URI malformed") |},
        [NotionRetrieve (JStr (js "abc123"))]).
Proof.
  split.
  - apply (proj1 (handler_before_fetch (host None (die_hard_answer []))
                    (body_request (js "abc123")) (JStr (js "abc123")) die_hard_page
                    eq_refl eq_refl ltac:(discriminate))).
    reflexivity.
  - apply (proj2 (handler_before_fetch
                    (host_of_page (title_page [text_fragment [0xD800%N]]))
                    (body_request (js "abc123")) (JStr (js "abc123"))
                    (title_page [text_fragment [0xD800%N]])
                    eq_refl eq_refl ltac:(discriminate))
             (URIError (js "URI malformed")));
      [discriminate | reflexivity].
Defined.

Lemma handler_empty_title_witness :
  handler (host_of_page (title_page [text_fragment (js "  "); text_fragment (js "Die Hard")]))
    (body_request (js "abc123"))
  = ({| code := 500; payload := ok_false empty_title |},
     [NotionRetrieve (JStr (js "abc123"))]).
Proof.
  apply (handler_empty_title
           (host_of_page (title_page [text_fragment (js "  "); text_fragment (js "Die Hard")]))
           (body_request (js "abc123")) (JStr (js "abc123"))
           (title_page [text_fragment (js "  "); text_fragment (js "Die Hard")]));
    reflexivity.
Defined.

(** ** Further properties of the date parser *)

Section DateEdges.

Variable w : World.

Lemma length_iso_year y : 4 <= length (iso_year y).
Proof.
  unfold iso_year. destruct (_ && _); cbn [length]; rewrite length_digits; lia.
Qed.

(** The ten code units that are kept lie in the date part. *)
Lemma slice_toISOString t :
  slice0 10 (toISOString t) = slice0 10 (iso_date_part (civil_from_days (t / msPerDay))).
Proof.
  unfold toISOString, iso_date_part.
  destruct (civil_from_days (t / msPerDay)) as [[y m] d].
  unfold slice0.
  rewrite !(app_assoc (iso_year y)), !(app_assoc (iso_year y ++ _)),
    !(app_assoc ((iso_year y ++ _) ++ _)), !(app_assoc (((iso_year y ++ _) ++ _) ++ _)).
  rewrite take_app_le; [rewrite <- !app_assoc; reflexivity|].
  pose proof (length_iso_year y).
  rewrite !length_app, !length_digits. cbn [length js]. simpl. lia.
Qed.

Lemma digits_are_digits n x : forallb is_digit (digits n x) = true.
Proof.
  revert x. induction n as [|n IH]; intros x; [reflexivity|].
  cbn [digits]. rewrite forallb_app, IH. cbn. unfold digit, is_digit.
  pose proof (Z.mod_pos_bound x 10 ltac:(lia)).
  rewrite andb_true_r. apply andb_true_iff. split; apply N.leb_le; lia.
Qed.

Lemma digits_nonempty n x : digits (S n) x <> [].
Proof. cbn [digits]. destruct (digits n (x / 10)); discriminate. Qed.

Lemma digits_value n x :
  fold_left (fun acc c => (10 * acc + Z.of_N (c - 0x30))%Z) (digits n x) 0%Z
  = (x mod 10 ^ Z.of_nat n)%Z.
Proof.
  revert x. induction n as [|n IH]; intros x.
  - cbn. rewrite Z.mod_1_r. reflexivity.
  - cbn [digits]. rewrite fold_left_app. cbn [fold_left]. rewrite IH.
    unfold digit. pose proof (Z.mod_pos_bound x 10 ltac:(lia)).
    replace (Z.of_N (48 + Z.to_N (x mod 10) - 48)) with (x mod 10)%Z by lia.
    rewrite Nat2Z.inj_succ, Z.pow_succ_r by lia.
    rewrite (Z.rem_mul_r x 10 (10 ^ Z.of_nat n)) by lia. lia.
Qed.

(** Reading back what [digits] wrote. *)
Lemma decimal_digits n x :
  (0 <= x < 10 ^ Z.of_nat (S n))%Z -> decimal (digits (S n) x) = Some x.
Proof.
  intros Hx. unfold decimal. pose proof (digits_nonempty n x).
  destruct (digits (S n) x) eqn:E; [congruence|]. rewrite <- E.
  rewrite digits_are_digits, digits_value, Z.mod_small by exact Hx. reflexivity.
Qed.

Lemma digits_no_hyphen n x : 45%N ∉ digits n x.
Proof.
  intros H. pose proof (digits_are_digits n x) as Hd.
  rewrite forallb_forall in Hd. apply list_elem_of_In, Hd in H. discriminate.
Qed.

Lemma read_iso_date_iso_date y m d :
  (0 <= y <= 9999)%Z -> (1 <= m <= 12)%Z -> (1 <= d <= 31)%Z ->
  read_iso_date (iso_date y m d) = Some (days_from_civil y m d).
Proof.
  intros Hy Hm Hd. unfold read_iso_date, iso_date.
  change (js "-") with [45%N]. cbn [app].
  rewrite split_on_app by apply digits_no_hyphen.
  rewrite split_on_app by apply digits_no_hyphen.
  rewrite split_on_plain by apply digits_no_hyphen.
  rewrite !decimal_digits; [reflexivity | | |]; cbn; lia.
Qed.

(** The date that is returned stands for the UTC day of the instant that
    the engine read: for years 0 to 9999, reading the ten code units back
    as year, month and day gives the day number of the instant. *)
Theorem parseReleasedToISO_roundtrip r t y m d :
  r <> [] -> Date_parse w r = Some t ->
  civil_from_days (t / msPerDay) = (y, m, d) ->
  (0 <= y <= 9999)%Z ->
  exists s, parseReleasedToISO w r = Some s
            /\ read_iso_date s = Some (t / msPerDay)%Z.
Proof.
  intros Hr Ht Hc Hy. exists (iso_date y m d). split.
  - rewrite (parseReleasedToISO_Some w r t Hr Ht).
    rewrite (toISOString_date t y m d Hc Hy). reflexivity.
  - destruct (civil_from_days_inverse _ _ _ _ Hc) as (Hz & Hm & Hd).
    rewrite read_iso_date_iso_date by assumption. rewrite Hz. reflexivity.
Qed.

(** Only the UTC day of the instant counts: two strings that the engine
    reads as instants of the same UTC day give the same date, whatever the
    time of day and the zone they were written in. *)
Theorem parseReleasedToISO_utc_day r r' t t' :
  r <> [] -> r' <> [] ->
  Date_parse w r = Some t -> Date_parse w r' = Some t' ->
  (t / msPerDay = t' / msPerDay)%Z ->
  parseReleasedToISO w r = parseReleasedToISO w r'.
Proof.
  intros Hr Hr' Ht Ht' Hday.
  rewrite (parseReleasedToISO_Some w r t Hr Ht),
    (parseReleasedToISO_Some w r' t' Hr' Ht').
  rewrite !slice_toISOString, Hday. reflexivity.
Qed.

(** Outside the years 0 to 9999 the ten code units are not a date: the
    sign, six digits of the year, a hyphen and the month; the day of the
    month is cut off. *)
Theorem parseReleasedToISO_expanded_year r t y m d :
  r <> [] -> Date_parse w r = Some t ->
  civil_from_days (t / msPerDay) = (y, m, d) ->
  (y < 0 \/ 9999 < y)%Z ->
  parseReleasedToISO w r =
    Some ((if (y <? 0)%Z then 45%N else 43%N)
          :: digits 6 (Z.abs y) ++ js "-" ++ digits 2 m).
Proof.
  intros Hr Ht Hc Hy.
  rewrite (parseReleasedToISO_Some w r t Hr Ht), slice_toISOString, Hc.
  unfold iso_date_part, iso_year.
  replace ((0 <=? y)%Z && (y <=? 9999)%Z) with false
    by (symmetry; apply andb_false_iff; rewrite Z.leb_gt, Z.leb_gt; lia).
  reflexivity.
Qed.

End DateEdges.

Lemma parseReleasedToISO_roundtrip_witness :
  exists s,
    parseReleasedToISO (host None (die_hard_answer [])) (js "20 Jul 1988") = Some s
    /\ read_iso_date s = Some 6775%Z.
Proof.
  exact (parseReleasedToISO_roundtrip (host None (die_hard_answer []))
           (js "20 Jul 1988") 585360000000%Z 1988%Z 7%Z 20%Z
           ltac:(discriminate) eq_refl eq_refl ltac:(lia)).
Defined.

Lemma parseReleasedToISO_utc_day_witness :
  parseReleasedToISO host_with_time (js "20 Jun 1988")
  = parseReleasedToISO host_with_time (js "1988-06-20T23:59:59Z").
Proof.
  apply (parseReleasedToISO_utc_day host_with_time
           (js "20 Jun 1988") (js "1988-06-20T23:59:59Z")
           582768000000%Z 582854399000%Z);
    first [discriminate | reflexivity].
Defined.

Lemma parseReleasedToISO_expanded_year_witness :
  parseReleasedToISO (host_reading 253402300800000) (js "+010000-01-01T00:00:00Z")
  = Some (js "+010000-01").
Proof.
  rewrite (parseReleasedToISO_expanded_year (host_reading 253402300800000)
             (js "+010000-01-01T00:00:00Z") 253402300800000%Z 10000%Z 1%Z 1%Z
             ltac:(discriminate) eq_refl eq_refl ltac:(lia)).
  reflexivity.
Defined.

(** ** Properties of [encodeURIComponent] as the fetcher uses it *)

Section Encoding.

Open Scope N_scope.

Lemma lor_lt_256 a b : a < 256 -> b < 256 -> N.lor a b < 256.
Proof.
  intros Ha Hb. destruct (N.eq_dec (N.lor a b) 0) as [->|Hne]; [lia|].
  change 256 with (2 ^ 8). apply N.log2_lt_pow2; [lia|].
  rewrite N.log2_lor.
  assert (Hl : forall x, x < 256 -> N.log2 x < 8).
  { intros x Hx. destruct (N.eq_dec x 0) as [->|Hx0]; [cbn; lia|].
    apply N.log2_lt_pow2; [lia | exact Hx]. }
  specialize (Hl a Ha) as Hla. specialize (Hl b Hb) as Hlb. lia.
Qed.

Lemma land_63_lt x : N.land x 0x3F < 64.
Proof.
  change 0x3F with (N.ones 6). rewrite N.land_ones.
  apply N.mod_lt. discriminate.
Qed.

Lemma shiftr_lt x n k : x < k * 2 ^ n -> N.shiftr x n < k.
Proof.
  intros H. rewrite N.shiftr_div_pow2.
  apply N.Div0.div_lt_upper_bound. lia.
Qed.

Lemma utf8_encode_bytes cp :
  cp < 0x110000 -> Forall (fun b => b < 256) (utf8_encode cp).
Proof.
  intros Hcp. unfold utf8_encode.
  destruct (N.ltb_spec cp 0x80); [repeat constructor; lia|].
  destruct (N.ltb_spec cp 0x800).
  { repeat constructor; apply lor_lt_256; try lia.
    - assert (N.shiftr cp 6 < 32) by (apply shiftr_lt; cbn; lia). lia.
    - pose proof (land_63_lt cp). lia. }
  destruct (N.ltb_spec cp 0x10000).
  { repeat constructor; apply lor_lt_256; try lia.
    - assert (N.shiftr cp 12 < 16) by (apply shiftr_lt; cbn; lia). lia.
    - pose proof (land_63_lt (N.shiftr cp 6)). lia.
    - pose proof (land_63_lt cp). lia. }
  repeat constructor; apply lor_lt_256; try lia.
  - assert (N.shiftr cp 18 < 5) by (apply shiftr_lt; cbn; lia). lia.
  - pose proof (land_63_lt (N.shiftr cp 12)). lia.
  - pose proof (land_63_lt (N.shiftr cp 6)). lia.
  - pose proof (land_63_lt cp). lia.
Qed.

Lemma hex_digit_safe n : n < 16 -> url_safe (hex_digit n) = true.
Proof.
  intros H. unfold hex_digit, url_safe, is_unreserved, is_alnum.
  destruct (N.ltb_spec n 10).
  - replace ((48 <=? 48 + n) && (48 + n <=? 57)) with true; [reflexivity|].
    symmetry. apply andb_true_iff. split; apply N.leb_le; lia.
  - replace ((65 <=? 65 + (n - 10)) && (65 + (n - 10) <=? 90)) with true;
      [rewrite orb_true_r; reflexivity|].
    symmetry. apply andb_true_iff. split; apply N.leb_le; lia.
Qed.

Lemma percent_safe b :
  b < 256 -> Forall (fun c => url_safe c = true) (percent b).
Proof.
  intros H. unfold percent. repeat constructor.
  - apply hex_digit_safe. apply shiftr_lt. cbn. lia.
  - apply hex_digit_safe. change 0xF with (N.ones 4). rewrite N.land_ones.
    apply N.mod_lt. discriminate.
Qed.

Lemma encode_point_safe cp :
  cp < 0x110000 -> Forall (fun c => url_safe c = true) (encode_point cp).
Proof.
  intros H. unfold encode_point. destruct (is_unreserved cp) eqn:E.
  - constructor; [|constructor]. unfold url_safe. rewrite E. reflexivity.
  - pose proof (utf8_encode_bytes cp H) as Hb.
    induction Hb as [|b bs Hb _ IH]; [constructor|].
    cbn [flat_map]. apply Forall_app. split; [apply percent_safe; exact Hb | exact IH].
Qed.

(** The code points of a string of code units are below 0x110000. *)
Lemma code_points_bound n s cps :
  (length s <= n)%nat -> Forall code_unit s ->
  code_points s = Some cps -> Forall (fun cp => cp < 0x110000) cps.
Proof.
  revert s cps. induction n as [|n IH]; intros s cps Hn Hs.
  { destruct s; [|simpl in Hn; lia]. intros H. injection H as <-. constructor. }
  destruct s as [|c r]; [intros H; injection H as <-; constructor|].
  apply Forall_cons in Hs as [Hc Hr]. unfold code_unit in Hc.
  cbn [code_points]. destruct (is_high_surrogate c) eqn:Eh.
  - destruct r as [|d r']; [discriminate|].
    destruct (is_low_surrogate d) eqn:El; [|discriminate].
    apply Forall_cons in Hr as [Hd Hr'].
    destruct (code_points r') as [cps'|] eqn:E; [|discriminate].
    intros H. injection H as <-. constructor.
    + unfold is_high_surrogate, is_low_surrogate in *.
      apply andb_true_iff in Eh as [H1 H2]. apply andb_true_iff in El as [H3 H4].
      apply N.leb_le in H1, H2, H3, H4. rewrite N.shiftl_mul_pow2.
      change (2 ^ 10) with 1024. lia.
    + apply (IH r'); [simpl in Hn; lia | exact Hr' | exact E].
  - destruct (is_low_surrogate c); [discriminate|].
    destruct (code_points r) as [cps'|] eqn:E; [|discriminate].
    intros H. injection H as <-. constructor; [lia|].
    apply (IH r); [simpl in Hn; lia | exact Hr | exact E].
Qed.

Lemma unreserved_ascii c : is_unreserved c = true -> c < 0x80.
Proof.
  unfold is_unreserved, is_alnum. intros H.
  repeat (apply orb_true_iff in H as [H|H]);
    repeat match goal with
           | H : _ && _ = true |- _ => apply andb_true_iff in H as [? ?]
           | H : (_ <=? _) = true |- _ => apply N.leb_le in H
           | H : (_ =? _) = true |- _ => apply N.eqb_eq in H
           end; lia.
Qed.

(** What is put into the URL for the title holds nothing but the
    characters A-Z a-z 0-9 - _ . ! ~ * ' ( ) and percent escapes: no
    ampersand, equals sign, hash, question mark, slash, plus or space of the
    title reaches the query string.  A title of those characters alone is
    put into the URL as it is. *)
Theorem encodeURIComponent_safe s :
  (forall out,
     Forall code_unit s -> encodeURIComponent s = inr out ->
     Forall (fun c => url_safe c = true) out
     /\ forall c, c ∈ js "&=#?/+ " -> c ∉ out)
  /\ (Forall (fun c => is_unreserved c = true) s -> encodeURIComponent s = inr s).
Proof.
  split.
  - intros out Hs. unfold encodeURIComponent.
    destruct (code_points s) as [cps|] eqn:E; [|discriminate].
    intros H. injection H as <-.
    pose proof (code_points_bound (length s) s cps (le_n _) Hs E) as Hb.
    assert (Hsafe : Forall (fun c => url_safe c = true) (flat_map encode_point cps)).
    { clear E. induction Hb as [|cp cps' Hcp _ IH]; [constructor|].
      cbn [flat_map]. apply Forall_app.
      split; [apply encode_point_safe; exact Hcp | exact IH]. }
    split; [exact Hsafe|].
    intros c Hc Hin. rewrite Forall_forall in Hsafe. specialize (Hsafe c Hin).
    apply list_elem_of_In in Hc. cbn in Hc.
    repeat (destruct Hc as [<-|Hc]; [discriminate Hsafe|]). exact Hc.
  - intros Hs. unfold encodeURIComponent.
    assert (E : code_points s = Some s /\ flat_map encode_point s = s).
    { induction Hs as [|c r Hc _ [IH1 IH2]]; [split; reflexivity|].
      pose proof (unreserved_ascii c Hc) as Hlt.
      cbn [code_points flat_map]. unfold is_high_surrogate, is_low_surrogate.
      replace (55296 <=? c) with false by (symmetry; apply N.leb_gt; lia).
      replace (56320 <=? c) with false by (symmetry; apply N.leb_gt; lia).
      cbn [andb]. rewrite IH1, IH2. unfold encode_point. rewrite Hc.
      split; reflexivity. }
    destruct E as [-> ->]. reflexivity.
Qed.

End Encoding.

(** The one request that [fetchFromOMDb] makes goes to the provider's URL
    with the key as it is configured, the encoded title and the full-plot
    mode; the encoded title holds only safe characters, so that nothing of
    the title can end the parameter or add one, and a title of unreserved
    characters is sent as it is. *)
Theorem fetchFromOMDb_url w title_ tr r tr' :
  Forall code_unit title_ ->
  fetchFromOMDb w title_ tr = (r, tr') ->
  tr' = tr
  \/ exists key piece,
       OMDB w = Some key
       /\ encodeURIComponent title_ = inr piece
       /\ tr' = tr ++ [HttpGet (js "https://www.omdbapi.com/?apikey=" ++ key
                                ++ js "&t=" ++ piece ++ js "&plot=full")]
       /\ Forall (fun c => url_safe c = true) piece
       /\ (forall c, c ∈ js "&=#?/+ " -> c ∉ piece)
       /\ (Forall (fun c => is_unreserved c = true) title_ -> piece = title_).
Proof.
  intros Ht. unfold fetchFromOMDb.
  destruct (OMDB w) as [[|c key]|];
    try (intros H; injection H as _ <-; left; reflexivity).
  run_M. destruct (encodeURIComponent title_) as [e|piece] eqn:E;
    [intros H; injection H as _ <-; left; reflexivity|].
  intros H. right. exists (c :: key), piece.
  destruct (proj1 (encodeURIComponent_safe title_) piece Ht E) as [Hs Hn].
  assert (tr' = tr ++ [HttpGet (omdb_url (c :: key) piece)]) as ->.
  { destruct (http_get_json w _); [|destruct (decide _)]; injection H as _ <-; reflexivity. }
  repeat split; try assumption; try reflexivity.
  intros Hu. pose proof (proj2 (encodeURIComponent_safe title_) Hu) as E'.
  congruence.
Qed.

Lemma fetchFromOMDb_url_witness :
  exists key piece,
    OMDB (host (Some (js "k")) (die_hard_answer [])) = Some key
    /\ encodeURIComponent (js "Fast & Furious") = inr piece
    /\ snd (fetchFromOMDb (host (Some (js "k")) (die_hard_answer []))
              (js "Fast & Furious") [])
       = [] ++ [HttpGet (js "https://www.omdbapi.com/?apikey=" ++ key
                         ++ js "&t=" ++ piece ++ js "&plot=full")]
    /\ (forall c, c ∈ js "&=#?/+ " -> c ∉ piece).
Proof.
  destruct (fetchFromOMDb_url (host (Some (js "k")) (die_hard_answer []))
              (js "Fast & Furious") []
              (fst (fetchFromOMDb (host (Some (js "k")) (die_hard_answer []))
                      (js "Fast & Furious") []))
              (snd (fetchFromOMDb (host (Some (js "k")) (die_hard_answer []))
                      (js "Fast & Furious") [])))
    as [H | (key & piece & Hk & He & Htr & _ & Hn & _)].
  - repeat constructor.
  - reflexivity.
  - discriminate H.
  - exists key, piece. auto.
Defined.

Lemma encodeURIComponent_safe_witness :
  (forall c, c ∈ js "&=#?/+ " -> c ∉ js "Fast%20%26%20Furious%3A%20%3F")
  /\ encodeURIComponent (js "Alien") = inr (js "Alien").
Proof.
  split.
  - apply (proj1 (encodeURIComponent_safe (js "Fast & Furious: ?"))
             (js "Fast%20%26%20Furious%3A%20%3F")); [|reflexivity].
    repeat constructor.
  - apply (proj2 (encodeURIComponent_safe (js "Alien"))). repeat constructor.
Defined.

(** ** The white space of a summary *)

Section Spacing.

Implicit Types s t : jsstring.

Lemma single_spaced_clean s :
  single_spaced true s = true -> space_run s = 0 /\ single_spaced false s = true.
Proof.
  destruct s as [|c r]; [auto|]. cbn.
  destruct (is_space c); [|auto].
  rewrite andb_false_r. discriminate.
Qed.

Lemma single_spaced_weaken b s :
  single_spaced b s = true -> single_spaced false s = true.
Proof.
  destruct b; [apply single_spaced_clean | auto].
Qed.

Lemma single_spaced_take b n s :
  single_spaced b s = true -> single_spaced b (take n s) = true.
Proof.
  revert b n. induction s as [|c r IH]; intros b [|n]; try reflexivity.
  cbn [take single_spaced]. destruct (is_space c); [|apply IH].
  rewrite !andb_true_iff. intros [H1 H2]. split; [exact H1 | apply IH; exact H2].
Qed.

Lemma single_spaced_app b s t :
  single_spaced b s = true -> starts_clean t -> single_spaced false t = true ->
  single_spaced b (s ++ t) = true.
Proof.
  intros Hs Hc Ht. revert b Hs. induction s as [|c r IH]; intros b Hs.
  - destruct t as [|x t]; [reflexivity|]. cbn in *. rewrite Hc in *. exact Ht.
  - cbn [app single_spaced] in *. destruct (is_space c); [|apply IH; exact Hs].
    rewrite !andb_true_iff in *. destruct Hs as [H1 H2].
    split; [exact H1 | apply IH; exact H2].
Qed.

(** Collapsing leaves single spaces: from the start of a string, and
    behind a space that was just written, the rest of its run skipped. *)
Lemma collapse_scan_single s :
  single_spaced false (replace_scan re_spaces (js " ") 0 s) = true
  /\ single_spaced true (replace_scan re_spaces (js " ") (space_run s) s) = true.
Proof.
  induction s as [|c r [IH1 IH2]]; [split; reflexivity|].
  cbn [replace_scan space_run]. unfold re_spaces. cbn [space_run].
  destruct (is_space c) eqn:E.
  - split; [|exact IH2]. change (js " ") with [32%N]. cbn [app single_spaced].
    exact IH2.
  - split; cbn [single_spaced]; rewrite E; exact IH1.
Qed.

Lemma terminator_not_space c : is_terminator c = true -> is_space c = false.
Proof.
  unfold is_terminator. intros H.
  repeat (apply orb_true_iff in H as [H|H]); apply N.eqb_eq in H; subst; reflexivity.
Qed.

Lemma terminators_scan_single n s b :
  length s <= n ->
  single_spaced b s = true ->
  single_spaced b (replace_scan re_terminator_spaces (js "하다. ") 0 s) = true.
Proof.
  revert s b. induction n as [|n IH]; intros s b Hn Hs.
  { destruct s; [reflexivity | simpl in Hn; lia]. }
  destruct s as [|c r]; [reflexivity|]. simpl in Hn.
  cbn [replace_scan]. unfold re_terminator_spaces.
  destruct (is_terminator c) eqn:Et.
  - pose proof (terminator_not_space c Et) as Ec.
    cbn [single_spaced] in Hs. rewrite Ec in Hs.
    destruct r as [|c1 r1].
    + cbn. rewrite Ec. reflexivity.
    + cbn [space_run]. destruct (is_space c1) eqn:E1.
      * cbn [single_spaced] in Hs. rewrite E1 in Hs.
        apply andb_true_iff in Hs as [_ Hs].
        destruct (single_spaced_clean r1 Hs) as [-> _].
        cbn [replace_scan]. change (js "하다. ") with [54616%N; 45796%N; 46%N; 32%N].
        cbn [app single_spaced is_space N.eqb Pos.eqb orb andb negb N.leb N.compare
               Pos.compare Pos.compare_cont].
        cbn. apply IH; [simpl in Hn; lia | exact Hs].
      * cbn [single_spaced]. rewrite Ec. apply IH; [lia | exact Hs].
  - cbn [single_spaced] in *. destruct (is_space c).
    + rewrite !andb_true_iff in *. destruct Hs as [H1 H2].
      split; [exact H1 | apply IH; [lia | exact H2]].
    + apply IH; [lia | exact Hs].
Qed.

Lemma ibnida_scan_single n s b :
  length s <= n ->
  single_spaced b s = true ->
  single_spaced b (replace_scan (re_literal ibnida) hada 0 s) = true.
Proof.
  revert s b. induction n as [|n IH]; intros s b Hn Hs.
  { destruct s; [reflexivity | simpl in Hn; lia]. }
  destruct s as [|c r]; [reflexivity|].
  cbn [replace_scan].
  destruct (ibnida_match_front (c :: r)) as [[-> [r3 E]] | [-> _]].
  - injection E as -> ->. cbn in Hs. cbn [replace_scan app hada].
    cbn. apply IH; [simpl in Hn; lia | exact Hs].
  - cbn [single_spaced] in *. simpl in Hn. destruct (is_space c).
    + rewrite !andb_true_iff in *. destruct Hs as [H1 H2].
      split; [exact H1 | apply IH; [lia | exact H2]].
    + apply IH; [lia | exact Hs].
Qed.

Lemma cleaned_single_spaced plot : single_spaced false (cleaned plot) = true.
Proof.
  unfold cleaned, rewrite_ibnida, rewrite_terminators, collapse_spaces, replace_all.
  apply (ibnida_scan_single _ _ _ (le_n _)).
  apply (terminators_scan_single _ _ _ (le_n _)).
  apply collapse_scan_single.
Qed.

(** A summary holds no white space but the space U+0020, and never two
    spaces in a row: tabs, line breaks and runs of spaces of the plot are
    gone, also after the cut and with the final marker. *)
Theorem summarizeKorean_single_spaced plot :
  single_spaced false (summarizeKorean plot) = true.
Proof.
  unfold summarizeKorean. destruct (falsy plot); [reflexivity|]. cbv zeta.
  assert (H : single_spaced false (truncate (cleaned plot)) = true).
  { unfold truncate, slice0. destruct (_ <? _)%nat; [|apply cleaned_single_spaced].
    apply single_spaced_app; [|reflexivity|reflexivity].
    apply single_spaced_take, cleaned_single_spaced. }
  destruct (ends_with_marker _); [exact H|].
  apply single_spaced_app; [exact H | reflexivity | reflexivity].
Qed.

End Spacing.

(** ** Sentence ends in a summary *)

Section Sentences.

Implicit Types a b s ws : jsstring.

(** A scan across a segment [p] before a fixed rest [b]. *)
Lemma replace_scan_segment_at (m : matcher) rep p q b :
  (forall c a, m (c :: a ++ p ++ b) = m (c :: a)) ->
  (forall s n, m s = Some n -> n <= length s) ->
  replace_scan m rep 0 (p ++ b) = q ++ replace_scan m rep 0 b ->
  forall a skip,
    skip <= length a ->
    replace_scan m rep skip (a ++ p ++ b)
    = replace_scan m rep skip a ++ q ++ replace_scan m rep 0 b.
Proof.
  intros Hfront Hlen Hseg a.
  induction a as [|c a IH]; intros skip Hskip.
  - assert (skip = 0) as -> by (simpl in Hskip; lia). exact Hseg.
  - cbn [app replace_scan]. destruct skip as [|k].
    + rewrite Hfront. destruct (m (c :: a)) as [[|n]|] eqn:E.
      * rewrite IH by lia. reflexivity.
      * apply Hlen in E. simpl in E.
        rewrite IH by lia. rewrite <- app_assoc. reflexivity.
      * rewrite IH by lia. reflexivity.
    + simpl in Hskip. apply IH. lia.
Qed.

Lemma space_run_app_clean a x k :
  is_space x = false -> space_run (a ++ x :: k) = space_run a.
Proof.
  intros Hx. induction a as [|c a IH]; cbn [app space_run].
  - rewrite Hx. reflexivity.
  - rewrite IH. reflexivity.
Qed.

Lemma space_run_spaces ws b :
  forallb is_space ws = true -> starts_clean b ->
  space_run (ws ++ b) = length ws.
Proof.
  intros Hws Hb. induction ws as [|c ws IH].
  - destruct b as [|x b]; [reflexivity|]. cbn in *. rewrite Hb. reflexivity.
  - cbn in *. apply andb_true_iff in Hws as [-> Hws]. rewrite IH by exact Hws.
    reflexivity.
Qed.

Lemma replace_scan_skip (m : matcher) rep k b :
  replace_scan m rep (length k) (k ++ b) = replace_scan m rep 0 b.
Proof.
  induction k as [|c k IH]; [destruct b; reflexivity|]. exact IH.
Qed.

Lemma re_spaces_length s n : re_spaces s = Some n -> n <= length s.
Proof.
  unfold re_spaces. pose proof (space_run_le s).
  destruct (space_run s); [discriminate|]. intros E. injection E as <-. lia.
Qed.

Lemma re_terminator_spaces_length s n :
  re_terminator_spaces s = Some n -> n <= length s.
Proof.
  destruct s as [|c s]; [discriminate|]. unfold re_terminator_spaces.
  pose proof (space_run_le s).
  destruct (is_terminator c); [|discriminate].
  destruct (space_run s); [discriminate|]. intros E. injection E as <-.
  simpl. lia.
Qed.

Lemma collapse_spaces_clean b : starts_clean b -> starts_clean (collapse_spaces b).
Proof.
  destruct b as [|c b]; [auto|]. cbn. intros Hc.
  unfold collapse_spaces, replace_all. cbn [replace_scan]. unfold re_spaces.
  cbn [space_run]. rewrite Hc. exact Hc.
Qed.

Lemma collapse_spaces_sentence a t ws b :
  is_space t = false -> ws <> [] -> forallb is_space ws = true -> starts_clean b ->
  collapse_spaces (a ++ (t :: ws) ++ b)
  = collapse_spaces a ++ [t; 32%N] ++ collapse_spaces b.
Proof.
  intros Ht Hne Hws Hb. unfold collapse_spaces, replace_all.
  apply replace_scan_segment_at; [| exact re_spaces_length | | lia].
  - intros c a'. unfold re_spaces.
    change (c :: a' ++ (t :: ws) ++ b) with ((c :: a') ++ t :: (ws ++ b)).
    rewrite space_run_app_clean by exact Ht. reflexivity.
  - cbn [app replace_scan]. unfold re_spaces at 1. cbn [space_run]. rewrite Ht.
    destruct ws as [|x ws]; [congruence|].
    cbn in Hws. apply andb_true_iff in Hws as [Hx Hws].
    cbn [app replace_scan]. unfold re_spaces at 1. cbn [space_run]. rewrite Hx.
    rewrite space_run_spaces by assumption. rewrite replace_scan_skip. reflexivity.
Qed.

Lemma rewrite_terminators_sentence a t b :
  is_terminator t = true -> starts_clean b ->
  rewrite_terminators (a ++ [t; 32%N] ++ b)
  = rewrite_terminators a ++ js "하다. " ++ rewrite_terminators b.
Proof.
  intros Ht Hb. pose proof (terminator_not_space t Ht) as Hs.
  assert (Hrun : space_run b = 0).
  { destruct b as [|x b]; [reflexivity|]. cbn in *. rewrite Hb. reflexivity. }
  unfold rewrite_terminators, replace_all.
  apply replace_scan_segment_at; [| exact re_terminator_spaces_length | | lia].
  - intros c a'. unfold re_terminator_spaces.
    change (a' ++ [t; 32%N] ++ b) with (a' ++ t :: (32%N :: b)).
    rewrite space_run_app_clean by exact Hs. reflexivity.
  - cbn [app replace_scan]. unfold re_terminator_spaces at 1. rewrite Ht.
    cbn [space_run is_space]. cbn. rewrite Hrun. destruct b; reflexivity.
Qed.

Lemma rewrite_ibnida_sentence a b :
  rewrite_ibnida (a ++ js "하다. " ++ b)
  = rewrite_ibnida a ++ js "하다. " ++ rewrite_ibnida b.
Proof.
  unfold rewrite_ibnida, replace_all.
  apply replace_scan_segment; [| | reflexivity | lia].
  - intros c a' b'. unfold re_literal. f_equal.
    destruct a' as [|c1 [|c2 a']]; cbn.
    + destruct (N.eqb_spec 51077 c); reflexivity.
    + destruct (N.eqb_spec 51077 c); [|reflexivity].
      destruct (N.eqb_spec 45768 c1); reflexivity.
    + reflexivity.
  - intros s n. destruct (ibnida_match_front s) as [[-> [r ->]] | [-> _]];
      [|discriminate].
    intros H. injection H as <-. rewrite length_app. simpl. lia.
Qed.

(** A sentence end of the plot, one of . ! ? with white space behind it,
    becomes 하다. and one space, whatever the terminator and however long
    the white space; the text before and behind it is cleaned as it would
    be alone. *)
Theorem cleaned_sentence a t ws b :
  is_terminator t = true ->
  ws <> [] -> forallb is_space ws = true ->
  starts_clean b ->
  cleaned (a ++ t :: ws ++ b) = cleaned a ++ js "하다. " ++ cleaned b.
Proof.
  intros Ht Hne Hws Hb. unfold cleaned.
  change (a ++ t :: ws ++ b) with (a ++ (t :: ws) ++ b).
  rewrite collapse_spaces_sentence
    by (assumption || apply terminator_not_space; exact Ht).
  rewrite rewrite_terminators_sentence
    by (assumption || apply collapse_spaces_clean; exact Hb).
  rewrite rewrite_ibnida_sentence. reflexivity.
Qed.

End Sentences.

Lemma cleaned_sentence_witness :
  cleaned (js "Who is he" ++ 63%N :: [10%N; 32%N] ++ js "A cop.")
  = js "Who is he하다. A cop.".
Proof.
  rewrite (cleaned_sentence (js "Who is he") 63%N [10%N; 32%N] (js "A cop."));
    first [reflexivity | discriminate].
Defined.

(** ** What is submitted to the page *)

Section Submitted.

Variable w : World.

Lemma length_parseReleasedToISO r s :
  parseReleasedToISO w r = Some s -> length s = 10.
Proof.
  unfold parseReleasedToISO. destruct (falsy r); [discriminate|].
  destruct (Date_parse w r) as [t|]; [|discriminate].
  intros H. assert (s = slice0 10 (toISOString t)) as -> by congruence.
  rewrite slice_toISOString.
  destruct (civil_from_days (t / msPerDay)) as [[y m] d].
  unfold slice0, iso_date_part. rewrite length_take, !length_app, !length_digits.
  pose proof (length_iso_year y). change (length (js "-")) with 1. lia.
Qed.

(** The update that a run submits, if it submits one. *)
(** The calls of a run: none, the page, the page and the provider, or
    these and the update with the properties built from the answer. *)
Lemma handler_trace_cases req :
  snd (handler w req) = []
  \/ (exists id, snd (handler w req) = [NotionRetrieve id])
  \/ (exists id url, snd (handler w req) = [NotionRetrieve id; HttpGet url])
  \/ (exists id url answer,
        snd (handler w req)
        = [NotionRetrieve id; HttpGet url;
           NotionUpdate id (build_props w (movie_of answer))]).
Proof.
  unfold handler, handler_try. run_M.
  destruct (resolve_page_id req) as [e|id]; [left; reflexivity|].
  destruct (notion_retrieve w id) as [e|pg]; [right; left; exists id; reflexivity|].
  destruct (falsy (getTitle pg)); [right; left; exists id; reflexivity|].
  cbn [app].
  destruct (fetchFromOMDb w (getTitle pg) [NotionRetrieve id]) as [[e|data] tr] eqn:Hf.
  - destruct (fetchFromOMDb_calls w (getTitle pg) [NotionRetrieve id])
      as [[e' He] | (r & url & Hr)]; rewrite Hf in *.
    + injection He as _ ->. right. left. exists id. reflexivity.
    + injection Hr as _ ->. right. right. left. exists id, url. reflexivity.
  - apply fetchFromOMDb_ok in Hf
      as (key & piece & answer & _ & _ & _ & _ & _ & -> & ->).
    right. right. right. exists id, (omdb_url key piece), answer.
    destruct (notion_update w id (build_props w (movie_of answer))); reflexivity.
Qed.

Lemma handler_update_call req id props :
  NotionUpdate id props ∈ snd (handler w req) ->
  exists answer, props = build_props w (movie_of answer).
Proof.
  destruct (handler_trace_cases req)
    as [-> | [[id' ->] | [(id' & url & ->) | (id' & url & answer & ->)]]];
    intros H.
  - inversion H.
  - apply list_elem_of_singleton in H. discriminate.
  - apply elem_of_cons in H as [H|H]; [discriminate|].
    apply list_elem_of_singleton in H. discriminate.
  - apply elem_of_cons in H as [H|H]; [discriminate|].
    apply elem_of_cons in H as [H|H]; [discriminate|].
    apply list_elem_of_singleton in H. exists answer. congruence.
Qed.

(** Every page update that the handler submits, accepted or rejected,
    carries under 장르 a multi-select of genre names that are not empty,
    hold no comma and have no white space around them, in the provider's
    order, and under 개봉일 either no value or a date of ten code units. *)
Theorem handler_submitted_values req id props :
  NotionUpdate id props ∈ snd (handler w req) ->
  (exists names,
     assoc (js "장르") props = Some (Some (multi_select names))
     /\ Forall genre_name names)
  /\ (assoc (js "개봉일") props = Some None
      \/ exists s, assoc (js "개봉일") props = Some (Some (date s)) /\ length s = 10).
Proof.
  intros H. apply handler_update_call in H as [answer ->].
  rewrite build_props_eq. split.
  - exists (genres (movie_of answer)). split; [reflexivity|].
    apply movie_of_genres_clean.
  - destruct (parseReleasedToISO w (released (movie_of answer))) as [s|] eqn:E.
    + right. exists s. split; [|exact (length_parseReleasedToISO _ _ E)].
      reflexivity.
    + left. reflexivity.
Qed.

End Submitted.

Lemma handler_submitted_values_witness :
  exists names,
    assoc (js "장르")
      (build_props (host_update_rejects (Rejected (js "no")))
         (movie_of (die_hard_answer [])))
    = Some (Some (multi_select names))
    /\ Forall genre_name names.
Proof.
  apply (handler_submitted_values (host_update_rejects (Rejected (js "no")))
           (body_request (js "abc123")) (JStr (js "abc123"))).
  apply list_elem_of_In. vm_compute. right. right. left. reflexivity.
Defined.
